(** * Allwinner GPADC / THS driver (drivers/iio/adc/sun4i-gpadc-iio.c)

    A shallow embedding of the measurement path, the interrupt handlers,
    the runtime-PM callbacks, the thermal read and the device-tree probe of
    the driver, with the properties of its specification.

    Integers are [Z] with the C wrap-around written out ([u32], [int32]);
    the register file behind the regmap is a [gmap Z Z]; the driver's
    functions are computations in a state monad over the device and the
    kernel objects they touch, which also records the kernel calls made, in
    order. *)

From Stdlib Require Import ZArith List Lia Bool String.
From stdpp Require Import base gmap list.

Local Open Scope Z_scope.

(** ** C integers *)

Definition u32 (x : Z) : Z := x mod 2 ^ 32.

Definition int32 (x : Z) : Z := (x + 2 ^ 31) mod 2 ^ 32 - 2 ^ 31.

(** ** IIO channel types and info masks

    Those the driver tells apart; the others by their code. *)

Inductive iio_chan_type := IIO_VOLTAGE | IIO_TEMP | IIO_other_type (code : Z).

Inductive iio_chan_info_enum :=
| IIO_CHAN_INFO_RAW
| IIO_CHAN_INFO_SCALE
| IIO_CHAN_INFO_OFFSET
| IIO_CHAN_INFO_other (code : Z).

(** ** The headers of the driver

    The register offsets, bit masks and function-like macros come from
    <linux/iio/adc/sun4i-gpadc.h>, the error numbers, the IIO value kinds
    and the interrupt return code from the kernel's own headers.  None of
    them is among the sources at hand: the driver is embedded over
    arbitrary headers. *)

Record gpadc_header := {
  (* linux/errno.h *)
  ENODEV : Z;
  EINVAL : Z;
  ETIMEDOUT : Z;
  EPROBE_DEFER : Z;
  (* linux/iio/types.h *)
  IIO_VAL_INT : Z;
  IIO_VAL_INT_PLUS_NANO : Z;
  (* linux/irqreturn.h *)
  IRQ_HANDLED : Z;
  (* linux/iio/adc/sun4i-gpadc.h *)
  SUN4I_GPADC_CTRL0 : Z;
  SUN4I_GPADC_CTRL0_ADC_CLK_DIVIDER : Z -> Z;
  SUN4I_GPADC_CTRL0_FS_DIV : Z -> Z;
  SUN4I_GPADC_CTRL0_T_ACQ : Z -> Z;
  SUN4I_GPADC_CTRL1 : Z;
  SUN4I_GPADC_CTRL1_TP_MODE_EN : Z;
  SUN4I_GPADC_CTRL1_TP_ADC_SELECT : Z;
  SUN4I_GPADC_CTRL1_ADC_CHAN_SELECT : Z -> Z;
  SUN4I_GPADC_CTRL1_ADC_CHAN_MASK : Z;
  SUN6I_GPADC_CTRL1_TP_MODE_EN : Z;
  SUN6I_GPADC_CTRL1_TP_ADC_SELECT : Z;
  SUN6I_GPADC_CTRL1_ADC_CHAN_SELECT : Z -> Z;
  SUN6I_GPADC_CTRL1_ADC_CHAN_MASK : Z;
  SUN8I_A33_GPADC_CTRL1_CHOP_TEMP_EN : Z;
  SUN4I_GPADC_CTRL3 : Z;
  SUN4I_GPADC_CTRL3_FILTER_EN : Z;
  SUN4I_GPADC_CTRL3_FILTER_TYPE : Z -> Z;
  SUN4I_GPADC_TPR : Z;
  SUN4I_GPADC_TPR_TEMP_ENABLE : Z;
  SUN4I_GPADC_TPR_TEMP_PERIOD : Z -> Z;
  SUN4I_GPADC_INT_FIFOC : Z;
  SUN4I_GPADC_INT_FIFOC_TEMP_IRQ_EN : Z;
  SUN4I_GPADC_INT_FIFOC_TP_FIFO_TRIG_LEVEL : Z -> Z;
  SUN4I_GPADC_INT_FIFOC_TP_FIFO_FLUSH : Z;
  SUN4I_GPADC_TEMP_DATA : Z;
  SUN4I_GPADC_DATA : Z;
  SUN4I_GPADC_IRQ_FIFO_DATA : Z;
  SUN4I_GPADC_IRQ_TEMP_DATA : Z;
  SUN8I_H3_THS_CTRL0 : Z;
  SUN8I_H3_THS_CTRL2 : Z;
  SUN8I_H3_THS_INTC : Z;
  SUN8I_H3_THS_STAT : Z;
  SUN8I_H3_THS_FILTER : Z;
  SUN8I_H3_THS_TDATA0 : Z;
  SUN8I_H3_THS_ACQ1 : Z -> Z;
  SUN8I_H3_THS_TEMP_SENSE_EN0 : Z;
  SUN8I_H3_THS_INTC_TDATA_IRQ_EN0 : Z;
  SUN8I_H3_THS_TEMP_PERIOD : Z -> Z;
  SUN8I_H3_THS_INTS_TDATA_IRQ_0 : Z;
}.

(** ** struct gpadc_data

    Function pointers are tags, dispatched where the driver calls through
    them; a pointer the initializer leaves out is NULL ([None]). *)

Inductive chan_select_fn := sun4i_gpadc_chan_select_fn | sun6i_gpadc_chan_select_fn.
Inductive irq_thread_fn := sun4i_gpadc_data_irq_handler_fn | sunx8i_h3_irq_thread_fn.
Inductive ths_suspend_fn := sun4i_ths_suspend_fn | sun8i_h3_ths_suspend_fn.
Inductive ths_resume_fn := sun4i_ths_resume_fn | sun8i_h3_ths_resume_fn.

Record gpadc_data := {
  temp_offset : Z;
  temp_scale : Z;
  tp_mode_en : Z;
  tp_adc_select : Z;
  adc_chan_select : option chan_select_fn;
  adc_chan_mask : Z;
  adc_channel : bool;
  ths_irq_thread : option irq_thread_fn;
  ths_suspend : option ths_suspend_fn;
  ths_resume : option ths_resume_fn;
  support_irq : bool;
  has_bus_clk : bool;
  has_bus_rst : bool;
  has_mod_clk : bool;
  temp_data_base : Z;
  sensor_count : Z;
  supports_nvmem : bool;
  ths_irq_clear : Z;
}.

(** ** The device and the kernel objects around it *)

Inductive event :=
| EvMutexLock
| EvMutexUnlock
| EvPmGetSync
| EvPmMarkLastBusy
| EvPmPutAutosuspend
| EvReinitCompletion
| EvComplete
| EvRegWrite (reg val ret : Z)
| EvRegRead (reg ret : Z)
| EvMdelay (ms : Z)
| EvEnableIrq
| EvDisableIrq
| EvWaitForCompletion (ms ret : Z)
| EvThermalZoneUpdate (sensor : Z)
| EvDevErr (msg : string)
| EvRequestIrq (ret : Z)
| EvResetDeassert
| EvResetAssert
| EvClkPrepareEnable (name : string)
| EvClkSetRate (name : string) (rate : Z)
| EvClkDisableUnprepare (name : string).

(** [struct sun4i_gpadc_iio], together with what the kernel keeps for the
    objects the structure points to. *)
Record world := {
  (* struct sun4i_gpadc_iio *)
  completion : nat;               (* completion.done *)
  temp_data : Z;                  (* int *)
  adc_data : Z;                   (* u32 *)
  irq_data_type : Z;              (* unsigned int *)
  data : option gpadc_data;       (* const struct gpadc_data *, NULL before probe *)
  calibration_data : Z * Z;       (* u32 [2] *)
  (* behind info->regmap *)
  regs : gmap Z Z;                (* register file *)
  faults : list Z;                (* return codes of the coming regmap accesses;
                                     0, or none left, is success *)
  (* behind info->irq *)
  irq_depth : nat;                (* disable depth; the line is live at 0 *)
  irq_raised : bool;              (* the device raises the line in the next wait *)
  (* behind info->mutex and the device's runtime PM *)
  mutex_held : bool;
  pm_usage : Z;
  (* indeterminate content of locals read before they are written *)
  stack_junk : Z;
}.

(** Field updates. *)

Definition set_completion (v : nat) (w : world) : world :=
  {| completion := v;
     temp_data := temp_data w;
     adc_data := adc_data w;
     irq_data_type := irq_data_type w;
     data := data w;
     calibration_data := calibration_data w;
     regs := regs w;
     faults := faults w;
     irq_depth := irq_depth w;
     irq_raised := irq_raised w;
     mutex_held := mutex_held w;
     pm_usage := pm_usage w;
     stack_junk := stack_junk w |}.

Definition set_temp_data (v : Z) (w : world) : world :=
  {| completion := completion w;
     temp_data := v;
     adc_data := adc_data w;
     irq_data_type := irq_data_type w;
     data := data w;
     calibration_data := calibration_data w;
     regs := regs w;
     faults := faults w;
     irq_depth := irq_depth w;
     irq_raised := irq_raised w;
     mutex_held := mutex_held w;
     pm_usage := pm_usage w;
     stack_junk := stack_junk w |}.

Definition set_adc_data (v : Z) (w : world) : world :=
  {| completion := completion w;
     temp_data := temp_data w;
     adc_data := v;
     irq_data_type := irq_data_type w;
     data := data w;
     calibration_data := calibration_data w;
     regs := regs w;
     faults := faults w;
     irq_depth := irq_depth w;
     irq_raised := irq_raised w;
     mutex_held := mutex_held w;
     pm_usage := pm_usage w;
     stack_junk := stack_junk w |}.

Definition set_irq_data_type (v : Z) (w : world) : world :=
  {| completion := completion w;
     temp_data := temp_data w;
     adc_data := adc_data w;
     irq_data_type := v;
     data := data w;
     calibration_data := calibration_data w;
     regs := regs w;
     faults := faults w;
     irq_depth := irq_depth w;
     irq_raised := irq_raised w;
     mutex_held := mutex_held w;
     pm_usage := pm_usage w;
     stack_junk := stack_junk w |}.

Definition set_data (v : option gpadc_data) (w : world) : world :=
  {| completion := completion w;
     temp_data := temp_data w;
     adc_data := adc_data w;
     irq_data_type := irq_data_type w;
     data := v;
     calibration_data := calibration_data w;
     regs := regs w;
     faults := faults w;
     irq_depth := irq_depth w;
     irq_raised := irq_raised w;
     mutex_held := mutex_held w;
     pm_usage := pm_usage w;
     stack_junk := stack_junk w |}.

Definition set_calibration_data (v : Z * Z) (w : world) : world :=
  {| completion := completion w;
     temp_data := temp_data w;
     adc_data := adc_data w;
     irq_data_type := irq_data_type w;
     data := data w;
     calibration_data := v;
     regs := regs w;
     faults := faults w;
     irq_depth := irq_depth w;
     irq_raised := irq_raised w;
     mutex_held := mutex_held w;
     pm_usage := pm_usage w;
     stack_junk := stack_junk w |}.

Definition set_regs (v : gmap Z Z) (w : world) : world :=
  {| completion := completion w;
     temp_data := temp_data w;
     adc_data := adc_data w;
     irq_data_type := irq_data_type w;
     data := data w;
     calibration_data := calibration_data w;
     regs := v;
     faults := faults w;
     irq_depth := irq_depth w;
     irq_raised := irq_raised w;
     mutex_held := mutex_held w;
     pm_usage := pm_usage w;
     stack_junk := stack_junk w |}.

Definition set_faults (v : list Z) (w : world) : world :=
  {| completion := completion w;
     temp_data := temp_data w;
     adc_data := adc_data w;
     irq_data_type := irq_data_type w;
     data := data w;
     calibration_data := calibration_data w;
     regs := regs w;
     faults := v;
     irq_depth := irq_depth w;
     irq_raised := irq_raised w;
     mutex_held := mutex_held w;
     pm_usage := pm_usage w;
     stack_junk := stack_junk w |}.

Definition set_irq_depth (v : nat) (w : world) : world :=
  {| completion := completion w;
     temp_data := temp_data w;
     adc_data := adc_data w;
     irq_data_type := irq_data_type w;
     data := data w;
     calibration_data := calibration_data w;
     regs := regs w;
     faults := faults w;
     irq_depth := v;
     irq_raised := irq_raised w;
     mutex_held := mutex_held w;
     pm_usage := pm_usage w;
     stack_junk := stack_junk w |}.

Definition set_irq_raised (v : bool) (w : world) : world :=
  {| completion := completion w;
     temp_data := temp_data w;
     adc_data := adc_data w;
     irq_data_type := irq_data_type w;
     data := data w;
     calibration_data := calibration_data w;
     regs := regs w;
     faults := faults w;
     irq_depth := irq_depth w;
     irq_raised := v;
     mutex_held := mutex_held w;
     pm_usage := pm_usage w;
     stack_junk := stack_junk w |}.

Definition set_mutex_held (v : bool) (w : world) : world :=
  {| completion := completion w;
     temp_data := temp_data w;
     adc_data := adc_data w;
     irq_data_type := irq_data_type w;
     data := data w;
     calibration_data := calibration_data w;
     regs := regs w;
     faults := faults w;
     irq_depth := irq_depth w;
     irq_raised := irq_raised w;
     mutex_held := v;
     pm_usage := pm_usage w;
     stack_junk := stack_junk w |}.

Definition set_pm_usage (v : Z) (w : world) : world :=
  {| completion := completion w;
     temp_data := temp_data w;
     adc_data := adc_data w;
     irq_data_type := irq_data_type w;
     data := data w;
     calibration_data := calibration_data w;
     regs := regs w;
     faults := faults w;
     irq_depth := irq_depth w;
     irq_raised := irq_raised w;
     mutex_held := mutex_held w;
     pm_usage := v;
     stack_junk := stack_junk w |}.

(** ** The monad of driver code

    A computation runs on a [world] and either returns a value, the new
    world and the kernel calls it made, or ends in a kernel oops (a call
    through a NULL pointer), with the calls made up to there. *)

Inductive result (A : Type) :=
| Done (a : A) (w : world) (evs : list event)
| Oops (evs : list event).

Arguments Done {A} a w evs.
Arguments Oops {A} evs.

Definition M (A : Type) : Type := world -> result A.

#[global] Instance M_ret : MRet M := fun A a w => Done a w [].

#[global] Instance M_bind : MBind M := fun A B f m w =>
  match m w with
  | Done a w1 e1 =>
      match f a w1 with
      | Done b w2 e2 => Done b w2 (e1 ++ e2)
      | Oops e2 => Oops (e1 ++ e2)
      end
  | Oops e1 => Oops e1
  end.

Definition events_of {A} (r : result A) : list event :=
  match r with Done _ _ evs => evs | Oops evs => evs end.

(** The world a run leaves, [w0] after an oops. *)
Definition world_of {A} (w0 : world) (r : result A) : world :=
  match r with Done _ w _ => w | Oops _ => w0 end.

Definition emit (e : event) : M unit := fun w => Done tt w [e].
Definition gets {A} (f : world -> A) : M A := fun w => Done (f w) w [].
Definition modify (f : world -> world) : M unit := fun w => Done tt (f w) [].
Definition oops {A} : M A := fun _ => Oops [].
Definition skip : M unit := mret tt.

(** A local variable declared without initializer. *)
Definition uninit : M Z := gets stack_junk.

(** [info->data->field]; oopses on a device that is not bound. *)
Definition info_data {A} (field : gpadc_data -> A) : M A := fun w =>
  match data w with
  | Some d => Done (field d) w []
  | None => Oops []
  end.

(** ** Kernel primitives *)

Definition mutex_lock : M unit :=
  modify (set_mutex_held true);; emit EvMutexLock.

Definition mutex_unlock : M unit :=
  modify (set_mutex_held false);; emit EvMutexUnlock.

(** The runtime-PM core is not part of the sources.  The call is the
    usage count and the call itself; the resume callback the core runs
    inside it on a suspended device is [sun4i_gpadc_runtime_resume] below,
    run on its own.  What is stated of the registers across a request is
    therefore what the request itself writes and reads back. *)
Definition pm_runtime_get_sync : M unit :=
  modify (fun w => set_pm_usage (pm_usage w + 1) w);; emit EvPmGetSync.

Definition pm_runtime_mark_last_busy : M unit := emit EvPmMarkLastBusy.

Definition pm_runtime_put_autosuspend : M unit :=
  modify (fun w => set_pm_usage (pm_usage w - 1) w);; emit EvPmPutAutosuspend.

Definition reinit_completion : M unit :=
  modify (set_completion 0%nat);; emit EvReinitCompletion.

Definition complete : M unit :=
  modify (fun w => set_completion (S (completion w)) w);; emit EvComplete.

Definition enable_irq : M unit :=
  modify (fun w => set_irq_depth (Nat.pred (irq_depth w)) w);; emit EvEnableIrq.

Definition disable_irq : M unit :=
  modify (fun w => set_irq_depth (S (irq_depth w)) w);; emit EvDisableIrq.

Definition mdelay (ms : Z) : M unit := emit (EvMdelay ms).

(** The return code of the coming regmap access. *)
Definition next_fault : M Z := fun w =>
  Done (hd 0 (faults w)) (set_faults (tl (faults w)) w) [].

(** [regmap_write(info->regmap, reg, val)]: the register latches the 32-bit
    value unless the access fails. *)
Definition regmap_write (reg val : Z) : M Z :=
  ret ← next_fault;
  (if ret =? 0
   then modify (fun w => set_regs (<[reg := u32 val]> (regs w)) w)
   else skip);;
  emit (EvRegWrite reg (u32 val) ret);;
  mret ret.

(** [regmap_read(info->regmap, reg, &out)], with [old] the content of [out]
    before the call: a failed access leaves [out] alone.  Returns the code
    and the content of [out]. *)
Definition regmap_read (reg old : Z) : M (Z * Z) :=
  ret ← next_fault;
  v ← gets (fun w => default 0 (regs w !! reg));
  emit (EvRegRead reg ret);;
  mret (ret, if ret =? 0 then u32 v else old).

(** The same with [out] an [int] passed through an [unsigned int] pointer:
    the 32 bits stored are read back as a signed number. *)
Definition regmap_read_int (reg old : Z) : M (Z * Z) :=
  '(ret, v) ← regmap_read reg (u32 old);
  mret (ret, if ret =? 0 then int32 v else old).

(** [wait_for_completion_timeout] and the interrupt line are further down,
    after the handlers the line runs. *)

(** ** The IIO channel table *)

Record iio_chan_spec := {
  chan_type : iio_chan_type;
  channel : Z;
  datasheet_name : string;
}.

(** The macro is the header's; the table below fixes its arguments: a
    voltage channel with the given index and name. *)
Definition SUN4I_GPADC_ADC_CHANNEL (_channel : Z) (_name : string) : iio_chan_spec :=
  {| chan_type := IIO_VOLTAGE; channel := _channel; datasheet_name := _name |}.

Definition sun4i_gpadc_channels : list iio_chan_spec :=
  [ SUN4I_GPADC_ADC_CHANNEL 0 "adc_chan0";
    SUN4I_GPADC_ADC_CHANNEL 1 "adc_chan1";
    SUN4I_GPADC_ADC_CHANNEL 2 "adc_chan2";
    SUN4I_GPADC_ADC_CHANNEL 3 "adc_chan3";
    {| chan_type := IIO_TEMP; channel := 0; datasheet_name := "temp_adc" |} ].

(** ** The platform device seen by the probe *)

(** [nvmem_cell_get(dev, "calibration")]: an error pointer, or a cell with
    its content as [nvmem_cell_read] returns it. *)
Inductive nvmem_cell :=
| NvmemCellErr (err : Z)
| NvmemCell (content : list Byte.byte).

(** Pointer results are given by their [PTR_ERR], 0 for a valid pointer. *)
Record platform_device := {
  of_match_data : option gpadc_data;
  ioremap_err : Z;
  nvmem_calibration : nvmem_cell;
  regmap_init_err : Z;
  request_irq_ret : Z;
  reset_get_err : Z;
  reset_deassert_ret : Z;
  bus_clk_get_err : Z;
  bus_clk_enable_ret : Z;
  mod_clk_get_err : Z;
  mod_clk_set_rate_ret : Z;
  mod_clk_enable_ret : Z;
}.

Definition byte_at (bs : list Byte.byte) (i : nat) : Z :=
  match bs !! i with
  | Some b => Z.of_N (Byte.to_N b)
  | None => 0
  end.

(** Word [i] of the cell content read as an array of u32, on the
    little-endian cores the driver runs on. *)
Definition cell_word (bs : list Byte.byte) (i : nat) : Z :=
  byte_at bs (4 * i)%nat
  + byte_at bs (4 * i + 1)%nat * 2 ^ 8
  + byte_at bs (4 * i + 2)%nat * 2 ^ 16
  + byte_at bs (4 * i + 3)%nat * 2 ^ 24.

(** ** The driver *)

Section Driver.

Context (hw : gpadc_header).

Definition sun4i_gpadc_chan_select (chan : Z) : Z :=
  u32 (SUN4I_GPADC_CTRL1_ADC_CHAN_SELECT hw chan).

Definition sun6i_gpadc_chan_select (chan : Z) : Z :=
  u32 (SUN6I_GPADC_CTRL1_ADC_CHAN_SELECT hw chan).

(** [info->data->adc_chan_select(chan)] *)
Definition call_adc_chan_select (chan : Z) : M Z :=
  f ← info_data adc_chan_select;
  match f with
  | Some sun4i_gpadc_chan_select_fn => mret (sun4i_gpadc_chan_select (u32 chan))
  | Some sun6i_gpadc_chan_select_fn => mret (sun6i_gpadc_chan_select (u32 chan))
  | None => oops
  end.

(** *** The variant tables *)

Definition sun4i_gpadc_data : gpadc_data :=
  {| temp_offset := -1932;
     temp_scale := 133;
     tp_mode_en := u32 (SUN4I_GPADC_CTRL1_TP_MODE_EN hw);
     tp_adc_select := u32 (SUN4I_GPADC_CTRL1_TP_ADC_SELECT hw);
     adc_chan_select := Some sun4i_gpadc_chan_select_fn;
     adc_chan_mask := u32 (SUN4I_GPADC_CTRL1_ADC_CHAN_MASK hw);
     adc_channel := true;
     ths_irq_thread := Some sun4i_gpadc_data_irq_handler_fn;
     ths_suspend := Some sun4i_ths_suspend_fn;
     ths_resume := Some sun4i_ths_resume_fn;
     support_irq := true;
     has_bus_clk := false;
     has_bus_rst := false;
     has_mod_clk := false;
     temp_data_base := u32 (SUN4I_GPADC_TEMP_DATA hw);
     sensor_count := 1;
     supports_nvmem := false;
     ths_irq_clear := 0 |}.

Definition sun5i_gpadc_data : gpadc_data :=
  {| temp_offset := -1447;
     temp_scale := 100;
     tp_mode_en := u32 (SUN4I_GPADC_CTRL1_TP_MODE_EN hw);
     tp_adc_select := u32 (SUN4I_GPADC_CTRL1_TP_ADC_SELECT hw);
     adc_chan_select := Some sun4i_gpadc_chan_select_fn;
     adc_chan_mask := u32 (SUN4I_GPADC_CTRL1_ADC_CHAN_MASK hw);
     adc_channel := true;
     ths_irq_thread := Some sun4i_gpadc_data_irq_handler_fn;
     ths_suspend := Some sun4i_ths_suspend_fn;
     ths_resume := Some sun4i_ths_resume_fn;
     support_irq := true;
     has_bus_clk := false;
     has_bus_rst := false;
     has_mod_clk := false;
     temp_data_base := u32 (SUN4I_GPADC_TEMP_DATA hw);
     sensor_count := 1;
     supports_nvmem := false;
     ths_irq_clear := 0 |}.

Definition sun6i_gpadc_data : gpadc_data :=
  {| temp_offset := -1623;
     temp_scale := 167;
     tp_mode_en := u32 (SUN6I_GPADC_CTRL1_TP_MODE_EN hw);
     tp_adc_select := u32 (SUN6I_GPADC_CTRL1_TP_ADC_SELECT hw);
     adc_chan_select := Some sun6i_gpadc_chan_select_fn;
     adc_chan_mask := u32 (SUN6I_GPADC_CTRL1_ADC_CHAN_MASK hw);
     adc_channel := true;
     ths_irq_thread := Some sun4i_gpadc_data_irq_handler_fn;
     ths_suspend := Some sun4i_ths_suspend_fn;
     ths_resume := Some sun4i_ths_resume_fn;
     support_irq := true;
     has_bus_clk := false;
     has_bus_rst := false;
     has_mod_clk := false;
     temp_data_base := u32 (SUN4I_GPADC_TEMP_DATA hw);
     sensor_count := 1;
     supports_nvmem := false;
     ths_irq_clear := 0 |}.

Definition sun8i_a33_gpadc_data : gpadc_data :=
  {| temp_offset := -1662;
     temp_scale := 162;
     tp_mode_en := u32 (SUN8I_A33_GPADC_CTRL1_CHOP_TEMP_EN hw);
     tp_adc_select := 0;
     adc_chan_select := None;
     adc_chan_mask := 0;
     adc_channel := false;
     ths_irq_thread := None;
     ths_suspend := Some sun4i_ths_suspend_fn;
     ths_resume := Some sun4i_ths_resume_fn;
     support_irq := false;
     has_bus_clk := false;
     has_bus_rst := false;
     has_mod_clk := false;
     temp_data_base := u32 (SUN4I_GPADC_TEMP_DATA hw);
     sensor_count := 1;
     supports_nvmem := false;
     ths_irq_clear := 0 |}.

Definition sun8i_h3_ths_data : gpadc_data :=
  {| temp_offset := -1791;
     temp_scale := -121;
     tp_mode_en := 0;
     tp_adc_select := 0;
     adc_chan_select := None;
     adc_chan_mask := 0;
     adc_channel := false;
     ths_irq_thread := Some sunx8i_h3_irq_thread_fn;
     ths_suspend := Some sun8i_h3_ths_suspend_fn;
     ths_resume := Some sun8i_h3_ths_resume_fn;
     support_irq := true;
     has_bus_clk := true;
     has_bus_rst := true;
     has_mod_clk := true;
     temp_data_base := u32 (SUN8I_H3_THS_TDATA0 hw);
     sensor_count := 1;
     supports_nvmem := true;
     ths_irq_clear := u32 (SUN8I_H3_THS_INTS_TDATA_IRQ_0 hw) |}.

(** The [.data] of the entries of [sun4i_gpadc_of_id], in table order. *)
Definition sun4i_gpadc_of_id : list (string * gpadc_data) :=
  [ ("allwinner,sun8i-a33-ths"%string, sun8i_a33_gpadc_data);
    ("allwinner,sun4i-a10-gpadc"%string, sun4i_gpadc_data);
    ("allwinner,sun5i-a13-gpadc"%string, sun5i_gpadc_data);
    ("allwinner,sun6i-a31-gpadc"%string, sun6i_gpadc_data);
    ("allwinner,sun8i-h3-ths"%string, sun8i_h3_ths_data) ].

(** *** Interrupt handlers *)

Definition sun4i_gpadc_data_irq_handler : M Z :=
  ty ← gets irq_data_type;
  (if ty =? SUN4I_GPADC_IRQ_FIFO_DATA hw then
     (* read fifo data *)
     old ← gets adc_data;
     '(ret, v) ← regmap_read (SUN4I_GPADC_DATA hw) old;
     modify (set_adc_data v);;
     if ret =? 0 then complete else skip
   else
     (* read temp data *)
     old ← gets temp_data;
     '(ret, v) ← regmap_read_int (SUN4I_GPADC_TEMP_DATA hw) old;
     modify (set_temp_data v);;
     if ret =? 0 then complete else skip);;
  mret (IRQ_HANDLED hw).

Definition sunx8i_h3_irq_thread : M Z :=
  clr ← info_data ths_irq_clear;
  regmap_write (SUN8I_H3_THS_STAT hw) clr;;
  n ← info_data sensor_count;
  mapM (fun i : nat => emit (EvThermalZoneUpdate (Z.of_nat i))) (seq 0 (Z.to_nat n));;
  mret (IRQ_HANDLED hw).

(** *** The interrupt line and the completion

    The handler requested in the probe runs when the device raises the line
    and its disable depth is 0.  One wait serves the line once: the periods
    of the temperature interrupt that follow within the same wait are
    further runs of the handler, not part of this one. *)
Definition run_irq_thread : M unit :=
  raised ← gets irq_raised;
  depth ← gets irq_depth;
  if raised && (depth =? 0)%nat then
    modify (set_irq_raised false);;
    h ← info_data ths_irq_thread;
    match h with
    | Some sun4i_gpadc_data_irq_handler_fn => sun4i_gpadc_data_irq_handler;; skip
    | Some sunx8i_h3_irq_thread_fn => sunx8i_h3_irq_thread;; skip
    | None => skip
    end
  else skip.

(** [wait_for_completion_timeout(&info->completion, msecs_to_jiffies(ms))]:
    what the line delivers during the wait comes first; the wait then takes
    one posted signal, or returns 0 when none is there at the deadline.  The
    time left, when a signal is taken, is at least 1; only its being
    non-zero is looked at. *)
Definition wait_for_completion_timeout (ms : Z) : M Z :=
  run_irq_thread;;
  done ← gets completion;
  ret ← match done with
        | O => mret 0
        | S n => modify (set_completion n);; mret 1
        end;
  emit (EvWaitForCompletion ms ret);;
  mret ret.

(** *** The measurement path *)

Definition sun4i_gpadc_irq_init : M Z :=
  ty ← gets irq_data_type;
  let reg :=
    if ty =? SUN4I_GPADC_IRQ_FIFO_DATA hw
    then u32 (SUN4I_GPADC_INT_FIFOC_TEMP_IRQ_EN hw)
    else u32 (SUN4I_GPADC_INT_FIFOC_TEMP_IRQ_EN hw) in
  regmap_write (SUN4I_GPADC_INT_FIFOC hw) reg;;
  mret 0.

Definition sun4i_prepare_for_irq (channel irq : Z) : M Z :=
  pm_runtime_get_sync;;
  reinit_completion;;
  ret ← regmap_write (SUN4I_GPADC_INT_FIFOC hw)
          (Z.lor (SUN4I_GPADC_INT_FIFOC_TP_FIFO_TRIG_LEVEL hw 1)
                 (SUN4I_GPADC_INT_FIFOC_TP_FIFO_FLUSH hw));
  if negb (ret =? 0) then mret ret else
  reg ← uninit;
  '(ret, reg) ← regmap_read (SUN4I_GPADC_CTRL1 hw) reg;
  if negb (ret =? 0) then mret ret else
  ret ← (if irq =? SUN4I_GPADC_IRQ_FIFO_DATA hw then
           en ← info_data tp_mode_en;
           sel ← info_data tp_adc_select;
           chan ← call_adc_chan_select channel;
           ret ← regmap_write (SUN4I_GPADC_CTRL1 hw) (Z.lor (Z.lor en sel) chan);
           (* When the IP changes channel, it needs a bit of time to get
              correct values. *)
           mask ← info_data adc_chan_mask;
           chan' ← call_adc_chan_select channel;
           (if negb (Z.land reg mask =? chan') then mdelay 10 else skip);;
           mret ret
         else
           (* The temperature sensor returns valid data only when the ADC
              operates in touchscreen mode. *)
           en ← info_data tp_mode_en;
           regmap_write (SUN4I_GPADC_CTRL1 hw) en);
  irqs ← info_data support_irq;
  (if irqs : bool then sun4i_gpadc_irq_init;; skip else skip);;
  if negb (ret =? 0) then mret ret else
  (* When the IP changes mode between ADC or touchscreen, it needs a bit
     of time to get correct values. *)
  sel ← info_data tp_adc_select;
  (if negb (Z.land reg sel =? sel) then mdelay 100 else skip);;
  mret 0.

(** The code from the [err] label on, with the return code and the content
    of [*val] reached there. *)
Definition sun4i_gpadc_read_err (ret val : Z) : M (Z * Z) :=
  pm_runtime_put_autosuspend;;
  disable_irq;;
  mutex_unlock;;
  mret (ret, val).

(** [val] is the content of [*val] at the call; the result is the return
    code and the content of [*val] at the return. *)
Definition sun4i_gpadc_read (channel val irq : Z) : M (Z * Z) :=
  mutex_lock;;
  modify (set_irq_data_type irq);;
  ret ← sun4i_prepare_for_irq channel irq;
  if negb (ret =? 0) then sun4i_gpadc_read_err ret val else
  enable_irq;;
  (* A 1s delay makes sure an interruption occurs in normal conditions.  If
     it doesn't occur, then there is a timeout. *)
  left ← wait_for_completion_timeout 1000;
  if left =? 0 then sun4i_gpadc_read_err (- (ETIMEDOUT hw)) val else
  v ← (if irq =? SUN4I_GPADC_IRQ_FIFO_DATA hw
       then a ← gets adc_data; mret (int32 a)
       else gets temp_data);
  pm_runtime_mark_last_busy;;
  sun4i_gpadc_read_err 0 v.

Definition sun4i_gpadc_adc_read (channel val : Z) : M (Z * Z) :=
  sun4i_gpadc_read channel val (SUN4I_GPADC_IRQ_FIFO_DATA hw).

Definition sun4i_gpadc_temp_read (val sensor : Z) : M (Z * Z) :=
  adc ← info_data adc_channel;
  if adc : bool then sun4i_gpadc_read 0 val (SUN4I_GPADC_IRQ_TEMP_DATA hw) else
  pm_runtime_get_sync;;
  base ← info_data temp_data_base;
  '(_, v) ← regmap_read_int (u32 (base + 4 * sensor)) val;
  pm_runtime_mark_last_busy;;
  pm_runtime_put_autosuspend;;
  mret (0, v).

Definition sun4i_gpadc_temp_offset (val : Z) : M (Z * Z) :=
  off ← info_data temp_offset;
  mret (0, off).

Definition sun4i_gpadc_temp_scale (val : Z) : M (Z * Z) :=
  sc ← info_data temp_scale;
  mret (0, sc).

(** The result is the return code and the contents of [*val] and [*val2]. *)
Definition sun4i_gpadc_read_raw (chan : iio_chan_spec) (val val2 : Z)
    (mask : iio_chan_info_enum) : M (Z * Z * Z) :=
  match mask with
  | IIO_CHAN_INFO_OFFSET =>
      '(ret, val) ← sun4i_gpadc_temp_offset val;
      if negb (ret =? 0) then mret (ret, val, val2) else
      mret (IIO_VAL_INT hw, val, val2)
  | IIO_CHAN_INFO_RAW =>
      '(ret, val) ← match chan_type chan with
                    | IIO_VOLTAGE => sun4i_gpadc_adc_read (channel chan) val
                    | _ => sun4i_gpadc_temp_read val 0
                    end;
      if negb (ret =? 0) then mret (ret, val, val2) else
      mret (IIO_VAL_INT hw, val, val2)
  | IIO_CHAN_INFO_SCALE =>
      match chan_type chan with
      | IIO_VOLTAGE =>
          (* 3000mV / 4096 * raw *)
          mret (IIO_VAL_INT_PLUS_NANO hw, 0, 732421875)
      | _ =>
          '(ret, val) ← sun4i_gpadc_temp_scale val;
          if negb (ret =? 0) then mret (ret, val, val2) else
          mret (IIO_VAL_INT hw, val, val2)
      end
  | IIO_CHAN_INFO_other _ => mret (- (EINVAL hw), val, val2)
  end.

(** *** Runtime PM *)

Definition sun8i_h3_calibrate : M Z :=
  (* the two writes of calibration_data to the CDATA registers are
     commented out in the source *)
  mret 0.

Definition sun4i_ths_suspend : M Z :=
  (* Disable the ADC on IP *)
  regmap_write (SUN4I_GPADC_CTRL1 hw) 0;;
  (* Disable temperature sensor on IP *)
  regmap_write (SUN4I_GPADC_TPR hw) 0;;
  (* Disable irq *)
  regmap_write (SUN4I_GPADC_INT_FIFOC hw) 0;;
  mret 0.

Definition sun8i_h3_ths_suspend : M Z :=
  (* Disable ths interrupt *)
  regmap_write (SUN8I_H3_THS_INTC hw) 0;;
  (* Disable temperature sensor *)
  regmap_write (SUN8I_H3_THS_CTRL2 hw) 0;;
  mret 0.

Definition sun4i_gpadc_runtime_suspend : M Z :=
  f ← info_data ths_suspend;
  match f with
  | Some sun4i_ths_suspend_fn => sun4i_ths_suspend
  | Some sun8i_h3_ths_suspend_fn => sun8i_h3_ths_suspend
  | None => oops
  end.

Definition sun4i_ths_resume : M Z :=
  (* clkin = 6MHz *)
  regmap_write (SUN4I_GPADC_CTRL0 hw)
    (Z.lor (Z.lor (SUN4I_GPADC_CTRL0_ADC_CLK_DIVIDER hw 2)
                  (SUN4I_GPADC_CTRL0_FS_DIV hw 7))
           (SUN4I_GPADC_CTRL0_T_ACQ hw 63));;
  en ← info_data tp_mode_en;
  regmap_write (SUN4I_GPADC_CTRL1 hw) en;;
  regmap_write (SUN4I_GPADC_CTRL3 hw)
    (Z.lor (SUN4I_GPADC_CTRL3_FILTER_EN hw)
           (SUN4I_GPADC_CTRL3_FILTER_TYPE hw 1));;
  (* period = SUN4I_GPADC_TPR_TEMP_PERIOD * 256 * 16 / clkin; ~0.6s *)
  regmap_write (SUN4I_GPADC_TPR hw)
    (Z.lor (SUN4I_GPADC_TPR_TEMP_ENABLE hw)
           (SUN4I_GPADC_TPR_TEMP_PERIOD hw 800));;
  mret 0.

Definition sun8i_h3_ths_resume : M Z :=
  value ← uninit;
  sun8i_h3_calibrate;;
  regmap_write (SUN8I_H3_THS_CTRL0 hw) (SUN4I_GPADC_CTRL0_T_ACQ hw 255);;
  regmap_write (SUN8I_H3_THS_CTRL2 hw) (SUN8I_H3_THS_ACQ1 hw 63);;
  regmap_write (SUN8I_H3_THS_STAT hw) (SUN8I_H3_THS_INTS_TDATA_IRQ_0 hw);;
  regmap_write (SUN8I_H3_THS_FILTER hw)
    (Z.lor (SUN4I_GPADC_CTRL3_FILTER_EN hw)
           (SUN4I_GPADC_CTRL3_FILTER_TYPE hw 2));;
  regmap_write (SUN8I_H3_THS_INTC hw)
    (Z.lor (SUN8I_H3_THS_INTC_TDATA_IRQ_EN0 hw)
           (SUN8I_H3_THS_TEMP_PERIOD hw 85));;
  '(_, value) ← regmap_read (SUN8I_H3_THS_CTRL2 hw) value;
  regmap_write (SUN8I_H3_THS_CTRL2 hw)
    (Z.lor (SUN8I_H3_THS_TEMP_SENSE_EN0 hw) value);;
  mret 0.

Definition sun4i_gpadc_runtime_resume : M Z :=
  f ← info_data ths_resume;
  match f with
  | Some sun4i_ths_resume_fn => sun4i_ths_resume
  | Some sun8i_h3_ths_resume_fn => sun8i_h3_ths_resume
  | None => oops
  end.

(** *** The thermal read

    [sensor_id] is [tzd->sensor_id]; [temp] the content of [*temp] at the
    call.  The product is the C [int] one. *)
Definition sun4i_gpadc_get_temp (sensor_id temp : Z) : M (Z * Z) :=
  val ← uninit;
  scale ← uninit;
  offset ← uninit;
  '(ret, val) ← sun4i_gpadc_temp_read val sensor_id;
  if negb (ret =? 0) then mret (- (ETIMEDOUT hw), temp) else
  '(_, scale) ← sun4i_gpadc_temp_scale scale;
  '(_, offset) ← sun4i_gpadc_temp_offset offset;
  mret (0, int32 (int32 (val + offset) * scale)).

(** *** The device-tree probe *)

(** The [assert_reset] and [disable_bus_clk] labels. *)
Definition probe_dt_assert_reset (ret : Z) : M Z :=
  emit EvResetAssert;;
  mret ret.

Definition probe_dt_disable_bus_clk (ret : Z) : M Z :=
  emit (EvClkDisableUnprepare "bus");;
  probe_dt_assert_reset ret.

(** From [info->sensor_device = &pdev->dev] back to the module clock. *)
Definition probe_dt_mod_clk (pdev : platform_device) : M Z :=
  has ← info_data has_mod_clk;
  if has : bool then
    if negb (mod_clk_get_err pdev =? 0)
    then probe_dt_disable_bus_clk (mod_clk_get_err pdev) else
    (* Running at 4MHz *)
    emit (EvClkSetRate "mod" 4000000);;
    if negb (mod_clk_set_rate_ret pdev =? 0)
    then probe_dt_disable_bus_clk (mod_clk_set_rate_ret pdev) else
    emit (EvClkPrepareEnable "mod");;
    if negb (mod_clk_enable_ret pdev =? 0)
    then probe_dt_disable_bus_clk (mod_clk_enable_ret pdev) else
    mret 0
  else mret 0.

Definition probe_dt_bus_clk (pdev : platform_device) : M Z :=
  has ← info_data has_bus_clk;
  if has : bool then
    if negb (bus_clk_get_err pdev =? 0)
    then probe_dt_assert_reset (bus_clk_get_err pdev) else
    emit (EvClkPrepareEnable "bus");;
    if negb (bus_clk_enable_ret pdev =? 0)
    then probe_dt_assert_reset (bus_clk_enable_ret pdev) else
    probe_dt_mod_clk pdev
  else probe_dt_mod_clk pdev.

Definition probe_dt_reset (pdev : platform_device) : M Z :=
  has ← info_data has_bus_rst;
  if has : bool then
    if negb (reset_get_err pdev =? 0) then mret (reset_get_err pdev) else
    emit EvResetDeassert;;
    if negb (reset_deassert_ret pdev =? 0) then mret (reset_deassert_ret pdev) else
    probe_dt_bus_clk pdev
  else probe_dt_bus_clk pdev.

Definition probe_dt_irq (pdev : platform_device) : M Z :=
  irqs ← info_data support_irq;
  if irqs : bool then
    (* ths interrupt *)
    emit (EvRequestIrq (request_irq_ret pdev));;
    adc ← info_data adc_channel;
    (if adc : bool then disable_irq else skip);;
    if negb (request_irq_ret pdev =? 0) then
      emit (EvDevErr "failed to add ths irq");;
      mret (request_irq_ret pdev)
    else probe_dt_reset pdev
  else probe_dt_reset pdev.

Definition probe_dt_regmap (pdev : platform_device) : M Z :=
  if negb (regmap_init_err pdev =? 0) then
    emit (EvDevErr "failed to init regmap");;
    mret (regmap_init_err pdev)
  else probe_dt_irq pdev.

Definition sun4i_gpadc_probe_dt (pdev : platform_device) : M Z :=
  modify (set_data (of_match_data pdev));;
  d ← gets data;
  if negb (bool_decide (is_Some d)) then mret (- (ENODEV hw)) else
  if negb (ioremap_err pdev =? 0) then mret (ioremap_err pdev) else
  nv ← info_data supports_nvmem;
  if nv : bool then
    match nvmem_calibration pdev with
    | NvmemCellErr err =>
        if err =? - (EPROBE_DEFER hw) then mret err else probe_dt_regmap pdev
    | NvmemCell cell_data =>
        let cell_size := Z.of_nat (length cell_data) in
        (if negb (cell_size =? 8) then
           emit (EvDevErr "Calibration data has wrong size")
         else
           modify (set_calibration_data
                     (cell_word cell_data 0, cell_word cell_data 1)));;
        probe_dt_regmap pdev
    end
  else probe_dt_regmap pdev.

End Driver.

(** ** A concrete header and device

    One instantiation of the headers: the kernel's error numbers and
    codes, the register layout of the A10/A13/A31 GPADC block as mainline's
    include/linux/mfd/sun4i-gpadc.h has it, and the layout of the H3
    thermal sensor block.  It is used where the driver is run on concrete
    registers. *)

Definition BIT (n : Z) : Z := Z.shiftl 1 n.
Definition GENMASK (h l : Z) : Z := Z.shiftl (Z.ones (h - l + 1)) l.

Definition sunxi_header : gpadc_header :=
  {| ENODEV := 19;
     EINVAL := 22;
     ETIMEDOUT := 110;
     EPROBE_DEFER := 517;
     IIO_VAL_INT := 1;
     IIO_VAL_INT_PLUS_NANO := 3;
     IRQ_HANDLED := 1;
     SUN4I_GPADC_CTRL0 := 0x00;
     SUN4I_GPADC_CTRL0_ADC_CLK_DIVIDER := fun x => Z.shiftl (Z.land (GENMASK 1 0) x) 20;
     SUN4I_GPADC_CTRL0_FS_DIV := fun x => Z.shiftl (Z.land (GENMASK 3 0) x) 16;
     SUN4I_GPADC_CTRL0_T_ACQ := fun x => Z.land (GENMASK 15 0) x;
     SUN4I_GPADC_CTRL1 := 0x04;
     SUN4I_GPADC_CTRL1_TP_MODE_EN := BIT 4;
     SUN4I_GPADC_CTRL1_TP_ADC_SELECT := BIT 3;
     SUN4I_GPADC_CTRL1_ADC_CHAN_SELECT := fun x => Z.land (GENMASK 2 0) x;
     SUN4I_GPADC_CTRL1_ADC_CHAN_MASK := GENMASK 2 0;
     SUN6I_GPADC_CTRL1_TP_MODE_EN := BIT 5;
     SUN6I_GPADC_CTRL1_TP_ADC_SELECT := BIT 4;
     SUN6I_GPADC_CTRL1_ADC_CHAN_SELECT := fun x => Z.land (GENMASK 3 0) (BIT x);
     SUN6I_GPADC_CTRL1_ADC_CHAN_MASK := GENMASK 3 0;
     SUN8I_A33_GPADC_CTRL1_CHOP_TEMP_EN := BIT 8;
     SUN4I_GPADC_CTRL3 := 0x0c;
     SUN4I_GPADC_CTRL3_FILTER_EN := BIT 2;
     SUN4I_GPADC_CTRL3_FILTER_TYPE := fun x => Z.land (GENMASK 1 0) x;
     SUN4I_GPADC_TPR := 0x18;
     SUN4I_GPADC_TPR_TEMP_ENABLE := BIT 16;
     SUN4I_GPADC_TPR_TEMP_PERIOD := fun x => Z.land (GENMASK 15 0) x;
     SUN4I_GPADC_INT_FIFOC := 0x10;
     SUN4I_GPADC_INT_FIFOC_TEMP_IRQ_EN := BIT 18;
     SUN4I_GPADC_INT_FIFOC_TP_FIFO_TRIG_LEVEL := fun x => Z.shiftl (Z.land (GENMASK 4 0) x) 8;
     SUN4I_GPADC_INT_FIFOC_TP_FIFO_FLUSH := BIT 4;
     SUN4I_GPADC_TEMP_DATA := 0x20;
     SUN4I_GPADC_DATA := 0x24;
     SUN4I_GPADC_IRQ_FIFO_DATA := 0;
     SUN4I_GPADC_IRQ_TEMP_DATA := 1;
     SUN8I_H3_THS_CTRL0 := 0x00;
     SUN8I_H3_THS_CTRL2 := 0x40;
     SUN8I_H3_THS_INTC := 0x44;
     SUN8I_H3_THS_STAT := 0x48;
     SUN8I_H3_THS_FILTER := 0x70;
     SUN8I_H3_THS_TDATA0 := 0x80;
     SUN8I_H3_THS_ACQ1 := fun x => Z.land (GENMASK 31 16) (Z.shiftl x 16);
     SUN8I_H3_THS_TEMP_SENSE_EN0 := BIT 0;
     SUN8I_H3_THS_INTC_TDATA_IRQ_EN0 := BIT 8;
     SUN8I_H3_THS_TEMP_PERIOD := fun x => Z.land (GENMASK 31 12) (Z.shiftl x 12);
     SUN8I_H3_THS_INTS_TDATA_IRQ_0 := BIT 8 |}.

(** A device bound to [d], as the probe leaves it: the line disabled once
    on a variant with ADC channels, nothing pending, all registers at
    their reset value 0 except those of [rs]. *)
Definition bound_device (d : gpadc_data) (rs : list (Z * Z)) : world :=
  {| completion := 0%nat;
     temp_data := 0;
     adc_data := 0;
     irq_data_type := 0;
     data := Some d;
     calibration_data := (0, 0);
     regs := list_to_map rs;
     faults := [];
     irq_depth := if adc_channel d then 1%nat else 0%nat;
     irq_raised := false;
     mutex_held := false;
     pm_usage := 0;
     stack_junk := 0 |}.

(** ** Sample devices

    Devices over [sunxi_header], on which the driver is run. *)

(** An A10 GPADC after the probe, with 1234 in the FIFO data register and
    77 in the temperature data register. *)
Definition a10_device : world :=
  bound_device (sun4i_gpadc_data sunxi_header) [(0x24, 1234); (0x20, 77)].

(** An H3 thermal sensor after the probe, with [ctrl2] in its control
    register. *)
Definition h3_device (ctrl2 : Z) : world :=
  bound_device (sun8i_h3_ths_data sunxi_header) [(0x40, ctrl2)].

(** The device the probe starts from, and an H3 platform device whose
    calibration cell holds [blob] and whose other resources are there. *)
Definition unbound_device : world :=
  {| completion := 0%nat;
     temp_data := 0;
     adc_data := 0;
     irq_data_type := 0;
     data := None;
     calibration_data := (0, 0);
     regs := ∅;
     faults := [];
     irq_depth := 0%nat;
     irq_raised := false;
     mutex_held := false;
     pm_usage := 0;
     stack_junk := 0 |}.

Definition h3_platform_device (blob : list Byte.byte) : platform_device :=
  {| of_match_data := Some (sun8i_h3_ths_data sunxi_header);
     ioremap_err := 0;
     nvmem_calibration := NvmemCell blob;
     regmap_init_err := 0;
     request_irq_ret := 0;
     reset_get_err := 0;
     reset_deassert_ret := 0;
     bus_clk_get_err := 0;
     bus_clk_enable_ret := 0;
     mod_clk_get_err := 0;
     mod_clk_set_rate_ret := 0;
     mod_clk_enable_ret := 0 |}.

(** ** Vocabulary of the properties *)

(** Every kernel call made by [m] satisfies [P]. *)
Definition emits_only {A} (P : event -> Prop) (m : M A) : Prop :=
  forall w, Forall P (events_of (m w)).

(** A run of [m] that returns leaves the observation [f] of the world as it
    found it. *)
Definition preserves {A B} (f : world -> B) (m : M A) : Prop :=
  forall w a w' evs, m w = Done a w' evs -> f w' = f w.

(** From a world satisfying [I], [m] returns, in a world satisfying [I],
    a value satisfying [Q]. *)
Definition returns {A} (I : world -> Prop) (Q : A -> Prop) (m : M A) : Prop :=
  forall w, I w -> exists a w' evs, m w = Done a w' evs /\ I w' /\ Q a.

(** The calls made between taking the lock and the common exit: neither
    part of the lock and interrupt bracket nor the wait. *)
Definition inner_event (e : event) : Prop :=
  match e with
  | EvMutexLock | EvMutexUnlock | EvEnableIrq | EvDisableIrq
  | EvPmPutAutosuspend | EvWaitForCompletion _ _ => False
  | _ => True
  end.

(** Observations of the world that regmap accesses, completions and value
    slots leave alone. *)
Class Framed {C} (g : world -> C) := {
  framed_completion n w : g (set_completion n w) = g w;
  framed_temp_data v w : g (set_temp_data v w) = g w;
  framed_adc_data v w : g (set_adc_data v w) = g w;
  framed_regs m w : g (set_regs m w) = g w;
  framed_faults l w : g (set_faults l w) = g w;
  framed_irq_raised b w : g (set_irq_raised b w) = g w;
}.

#[global] Instance pm_usage_framed : Framed pm_usage.
Proof. by split. Qed.
#[global] Instance irq_depth_framed : Framed irq_depth.
Proof. by split. Qed.
#[global] Instance data_framed : Framed data.
Proof. by split. Qed.
#[global] Instance mutex_held_framed : Framed mutex_held.
Proof. by split. Qed.
#[global] Instance calibration_data_framed : Framed calibration_data.
Proof. by split. Qed.

(** The world the common exit leaves. *)
Definition read_exit (w : world) : world :=
  set_mutex_held false
    (set_irq_depth (S (irq_depth w)) (set_pm_usage (pm_usage w - 1) w)).

Definition exit_calls : list event :=
  [EvPmPutAutosuspend; EvDisableIrq; EvMutexUnlock].

(** The world the preparation starts from. *)
Definition read_entry (irq : Z) (w : world) : world :=
  set_irq_data_type irq (set_mutex_held true w).

(** The world the wait starts from. *)
Definition read_armed (w : world) : world :=
  set_irq_depth (Nat.pred (irq_depth w)) w.

Section Paths.

Context (hw : gpadc_header).

(** The register the handler reads for the pending request. *)
Definition irq_data_reg (w : world) : Z :=
  if irq_data_type w =? SUN4I_GPADC_IRQ_FIFO_DATA hw
  then SUN4I_GPADC_DATA hw else SUN4I_GPADC_TEMP_DATA hw.

(** The three ways through [sun4i_gpadc_read]: the preparation fails, the
    wait times out, the wait is completed. *)
Inductive read_path (channel val irq : Z) (w : world) :
    Z * Z -> world -> list event -> Prop :=
| path_prepare_failed r w1 e1 :
    sun4i_prepare_for_irq hw channel irq (read_entry irq w) = Done r w1 e1 ->
    r <> 0 ->
    read_path channel val irq w (r, val) (read_exit w1)
      (EvMutexLock :: e1 ++ exit_calls)
| path_timed_out w1 e1 w2 e2 :
    sun4i_prepare_for_irq hw channel irq (read_entry irq w) = Done 0 w1 e1 ->
    wait_for_completion_timeout hw 1000 (read_armed w1) = Done 0 w2 e2 ->
    read_path channel val irq w (- (ETIMEDOUT hw), val) (read_exit w2)
      (EvMutexLock :: e1 ++ EvEnableIrq :: e2 ++ exit_calls)
| path_completed w1 e1 t w2 e2 :
    sun4i_prepare_for_irq hw channel irq (read_entry irq w) = Done 0 w1 e1 ->
    wait_for_completion_timeout hw 1000 (read_armed w1) = Done t w2 e2 ->
    t <> 0 ->
    read_path channel val irq w
      (0, if irq =? SUN4I_GPADC_IRQ_FIFO_DATA hw
          then int32 (adc_data w2) else temp_data w2)
      (read_exit w2)
      (EvMutexLock :: e1 ++ EvEnableIrq :: e2 ++ EvPmMarkLastBusy :: exit_calls).

End Paths.

(** Every resource the probe asks for after the calibration cell is
    there. *)
Definition probe_resources_ok (pdev : platform_device) : Prop :=
  regmap_init_err pdev = 0 /\ request_irq_ret pdev = 0 /\
  reset_get_err pdev = 0 /\ reset_deassert_ret pdev = 0 /\
  bus_clk_get_err pdev = 0 /\ bus_clk_enable_ret pdev = 0 /\
  mod_clk_get_err pdev = 0 /\ mod_clk_set_rate_ret pdev = 0 /\
  mod_clk_enable_ret pdev = 0.

(** A stage of the probe returns on a bound device, with 0 when the
    resources are there. *)
Definition stage_returns (pdev : platform_device) (d : gpadc_data) (m : M Z) : Prop :=
  returns (fun w => data w = Some d)
    (fun ret => probe_resources_ok pdev -> ret = 0) m.

(** The 32-bit word of four bytes, lowest first. *)
Definition le32 (b0 b1 b2 b3 : Byte.byte) : Z :=
  Z.of_N (Byte.to_N b0) + Z.of_N (Byte.to_N b1) * 2 ^ 8
  + Z.of_N (Byte.to_N b2) * 2 ^ 16 + Z.of_N (Byte.to_N b3) * 2 ^ 24.

(** The delays of a run, in order. *)
Definition mdelays (evs : list event) : list Z :=
  omap (fun e => match e with EvMdelay ms => Some ms | _ => None end) evs.

(** ** Vocabulary of the further properties *)

Section Requests.

Context (hw : gpadc_header).

(** What a call through [adc_chan_select] returns. *)
Definition chan_select_value (f : chan_select_fn) (channel : Z) : Z :=
  match f with
  | sun4i_gpadc_chan_select_fn => sun4i_gpadc_chan_select hw (u32 channel)
  | sun6i_gpadc_chan_select_fn => sun6i_gpadc_chan_select hw (u32 channel)
  end.

(** The value a preparation writes to the control register, when the
    variant can encode the request. *)
Definition mode_select (d : gpadc_data) (channel irq : Z) : option Z :=
  if irq =? SUN4I_GPADC_IRQ_FIFO_DATA hw then
    match adc_chan_select d with
    | Some f =>
        Some (Z.lor (Z.lor (tp_mode_en d) (tp_adc_select d))
                    (chan_select_value f channel))
    | None => None
    end
  else Some (tp_mode_en d).

(** The register file a preparation leaves when its accesses succeed and
    it writes [v] to the control register. *)
Definition prepared_regs (d : gpadc_data) (v : Z) (m : gmap Z Z) : gmap Z Z :=
  let m1 :=
    <[SUN4I_GPADC_CTRL1 hw := u32 v]>
      (<[SUN4I_GPADC_INT_FIFOC hw :=
           u32 (Z.lor (SUN4I_GPADC_INT_FIFOC_TP_FIFO_TRIG_LEVEL hw 1)
                      (SUN4I_GPADC_INT_FIFOC_TP_FIFO_FLUSH hw))]> m) in
  if support_irq d
  then <[SUN4I_GPADC_INT_FIFOC hw :=
           u32 (u32 (SUN4I_GPADC_INT_FIFOC_TEMP_IRQ_EN hw))]> m1
  else m1.

End Requests.

(** The registers a suspend callback writes. *)
Definition suspend_regs (hw : gpadc_header) (f : ths_suspend_fn) : list Z :=
  match f with
  | sun4i_ths_suspend_fn =>
      [SUN4I_GPADC_CTRL1 hw; SUN4I_GPADC_TPR hw; SUN4I_GPADC_INT_FIFOC hw]
  | sun8i_h3_ths_suspend_fn =>
      [SUN8I_H3_THS_INTC hw; SUN8I_H3_THS_CTRL2 hw]
  end.

(** ** Further sample devices *)

(** An A33 thermal sensor after the probe, with 77 in the temperature data
    register. *)
Definition a33_device : world :=
  bound_device (sun8i_a33_gpadc_data sunxi_header) [(0x20, 77)].

(** An H3 platform device with the calibration cell [cell], whose
    [clk_set_rate] on the module clock returns [rate_ret] and whose other
    resources are there. *)
Definition h3_platform_device_with (cell : nvmem_cell) (rate_ret : Z)
    : platform_device :=
  {| of_match_data := Some (sun8i_h3_ths_data sunxi_header);
     ioremap_err := 0;
     nvmem_calibration := cell;
     regmap_init_err := 0;
     request_irq_ret := 0;
     reset_get_err := 0;
     reset_deassert_ret := 0;
     bus_clk_get_err := 0;
     bus_clk_enable_ret := 0;
     mod_clk_get_err := 0;
     mod_clk_set_rate_ret := rate_ret;
     mod_clk_enable_ret := 0 |}.

(** An A10 platform device whose [devm_request_any_context_irq] returns
    [irq_ret]. *)
Definition a10_platform_device (irq_ret : Z) : platform_device :=
  {| of_match_data := Some (sun4i_gpadc_data sunxi_header);
     ioremap_err := 0;
     nvmem_calibration := NvmemCellErr (-2);
     regmap_init_err := 0;
     request_irq_ret := irq_ret;
     reset_get_err := 0;
     reset_deassert_ret := 0;
     bus_clk_get_err := 0;
     bus_clk_enable_ret := 0;
     mod_clk_get_err := 0;
     mod_clk_set_rate_ret := 0;
     mod_clk_enable_ret := 0 |}.

(** * Properties *)

(** ** C integers *)

Lemma int32_id x : - 2 ^ 31 <= x < 2 ^ 31 -> int32 x = x.
Proof. intros H. unfold int32. rewrite Z.mod_small; lia. Qed.

Lemma u32_idemp x : u32 (u32 x) = u32 x.
Proof. unfold u32. now rewrite Z.mod_mod. Qed.

(** ** Reasoning about computations *)

Section Combinators.

Context {A B : Type}.

Lemma bind_done (m : M A) (k : A -> M B) w b w' evs :
  (m ≫= k) w = Done b w' evs ->
  exists a w1 e1 e2,
    m w = Done a w1 e1 /\ k a w1 = Done b w' e2 /\ evs = e1 ++ e2.
Proof.
  unfold mbind, M_bind. destruct (m w) as [a w1 e1|e1]; [|discriminate].
  destruct (k a w1) as [b' w2 e2|e2] eqn:Hk; [|discriminate].
  intros [= -> -> <-]. eauto 10.
Qed.

Lemma bind_run (m : M A) (k : A -> M B) w a w1 e1 :
  m w = Done a w1 e1 ->
  (m ≫= k) w =
    match k a w1 with
    | Done b w2 e2 => Done b w2 (e1 ++ e2)
    | Oops e2 => Oops (e1 ++ e2)
    end.
Proof. intros H. unfold mbind, M_bind. now rewrite H. Qed.

Lemma emits_only_bind P (m : M A) (k : A -> M B) :
  emits_only P m -> (forall a, emits_only P (k a)) -> emits_only P (m ≫= k).
Proof.
  intros Hm Hk w. specialize (Hm w). unfold mbind, M_bind.
  destruct (m w) as [a w1 e1|e1]; simpl in *; [|done].
  specialize (Hk a w1). destruct (k a w1); simpl in *; now apply Forall_app.
Qed.

Lemma preserves_bind {C} (f : world -> C) (m : M A) (k : A -> M B) :
  preserves f m -> (forall a, preserves f (k a)) -> preserves f (m ≫= k).
Proof.
  intros Hm Hk w b w' evs H.
  apply bind_done in H as (a & w1 & e1 & e2 & H1 & H2 & _).
  rewrite (Hk _ _ _ _ _ H2). eapply Hm, H1.
Qed.

End Combinators.

Section Atoms.

Context {A : Type} (P : event -> Prop).

Lemma emits_only_ret (a : A) : emits_only P (mret a).
Proof. intros w. constructor. Qed.

Lemma emits_only_gets (f : world -> A) : emits_only P (gets f).
Proof. intros w. constructor. Qed.

Lemma emits_only_modify f : emits_only P (modify f).
Proof. intros w. constructor. Qed.

Lemma emits_only_oops : emits_only P (@oops A).
Proof. intros w. constructor. Qed.

Lemma emits_only_info_data (f : gpadc_data -> A) : emits_only P (info_data f).
Proof. intros w. unfold info_data. destruct (data w); constructor. Qed.

Lemma emits_only_emit e : P e -> emits_only P (emit e).
Proof. intros H w. simpl. auto. Qed.

Lemma emits_only_next_fault : emits_only P next_fault.
Proof. intros w. constructor. Qed.

Context {C : Type} (g : world -> C).

Lemma preserves_ret (a : A) : preserves g (mret a).
Proof. intros w a' w' evs [= _ <- _]. done. Qed.

Lemma preserves_gets (f : world -> A) : preserves g (gets f).
Proof. intros w a' w' evs [= _ <- _]. done. Qed.

Lemma preserves_oops : preserves g (@oops A).
Proof. intros w a' w' evs [=]. Qed.

Lemma preserves_info_data (f : gpadc_data -> A) : preserves g (info_data f).
Proof.
  intros w a' w' evs. unfold info_data. destruct (data w); [|done].
  now intros [= _ <- _].
Qed.

Lemma preserves_emit e : preserves g (emit e).
Proof. intros w a' w' evs [= _ <- _]. done. Qed.

Lemma preserves_modify f : (forall w, g (f w) = g w) -> preserves g (modify f).
Proof. intros H w a' w' evs [= _ <- _]. apply H. Qed.

End Atoms.

(** Running a bind whose head is known. *)

Lemma gets_bind {A B} (f : world -> A) (k : A -> M B) w :
  (gets f ≫= k) w = k (f w) w.
Proof. unfold mbind, M_bind, gets. now destruct (k (f w) w). Qed.

Lemma modify_bind {B} (f : world -> world) (k : unit -> M B) w :
  (modify f ≫= k) w = k tt (f w).
Proof. unfold mbind, M_bind, modify. now destruct (k tt (f w)). Qed.

Lemma ret_bind {A B} (a : A) (k : A -> M B) w : (mret a ≫= k) w = k a w.
Proof. unfold mbind, M_bind, mret, M_ret. now destruct (k a w). Qed.

Lemma info_data_bind {A B} (f : gpadc_data -> A) (k : A -> M B) w d :
  data w = Some d -> (info_data f ≫= k) w = k (f d) w.
Proof.
  intros Hd. unfold mbind, M_bind, info_data. rewrite Hd.
  now destruct (k (f d) w).
Qed.

Lemma events_of_bind {A B} (m : M A) (k : A -> M B) w a w1 e1 :
  m w = Done a w1 e1 ->
  events_of ((m ≫= k) w) = e1 ++ events_of (k a w1).
Proof.
  intros H. rewrite (bind_run _ _ _ _ _ _ H). now destruct (k a w1).
Qed.

Lemma events_of_bind_ex {A B} (m : M A) (k : A -> M B) w :
  exists rest, events_of ((m ≫= k) w) = events_of (m w) ++ rest.
Proof.
  unfold mbind, M_bind. destruct (m w) as [a w1 e1|e1]; simpl.
  - destruct (k a w1); simpl; eauto.
  - exists []. now rewrite app_nil_r.
Qed.

Create HintDb driver discriminated.

#[export] Hint Resolve emits_only_ret emits_only_gets emits_only_modify
  emits_only_oops emits_only_info_data emits_only_next_fault
  preserves_ret preserves_gets preserves_oops preserves_info_data
  preserves_emit : driver.

(** Walks down a computation: binds, branches, then the atoms. *)
Ltac step_comp :=
  match goal with
  | |- emits_only _ (_ ≫= _) => apply emits_only_bind
  | |- preserves _ (_ ≫= _) => apply preserves_bind
  | |- emits_only _ (emit _) => apply emits_only_emit
  | |- preserves _ (modify _) => apply preserves_modify
  | |- emits_only _ (if ?c then _ else _) => destruct c
  | |- preserves _ (if ?c then _ else _) => destruct c
  | |- emits_only _ (match ?x with _ => _ end) => destruct x
  | |- preserves _ (match ?x with _ => _ end) => destruct x
  | |- forall _, _ => intro
  end.

Ltac walk := repeat step_comp; eauto with driver.

(** ** Kernel calls and frame of the primitives *)

#[export] Hint Resolve framed_completion framed_temp_data framed_adc_data
  framed_regs framed_faults framed_irq_raised : driver.

Section Frames.

Context (hw : gpadc_header) {C : Type} (g : world -> C) `{!Framed g}.

Lemma preserves_next_fault : preserves g next_fault.
Proof. intros w a w' evs [= _ <- _]. apply framed_faults. Qed.

Hint Resolve preserves_next_fault : driver.

Lemma preserves_regmap_write reg val : preserves g (regmap_write reg val).
Proof. unfold regmap_write, skip. walk. Qed.

Lemma preserves_regmap_read reg old : preserves g (regmap_read reg old).
Proof. unfold regmap_read. walk. Qed.

Hint Resolve preserves_regmap_write preserves_regmap_read : driver.

Lemma preserves_regmap_read_int reg old : preserves g (regmap_read_int reg old).
Proof. unfold regmap_read_int. walk. Qed.

Hint Resolve preserves_regmap_read_int : driver.

Lemma preserves_complete : preserves g complete.
Proof. unfold complete. walk. Qed.

Lemma preserves_reinit_completion : preserves g reinit_completion.
Proof. unfold reinit_completion. walk. Qed.

Lemma preserves_mdelay ms : preserves g (mdelay ms).
Proof. unfold mdelay. walk. Qed.

Hint Resolve preserves_complete preserves_reinit_completion preserves_mdelay : driver.

Lemma preserves_mapM_emit (f : nat -> event) l :
  preserves g (mapM (fun i => emit (f i)) l).
Proof. induction l; simpl; walk. Qed.

Hint Resolve preserves_mapM_emit : driver.

Lemma preserves_data_irq_handler : preserves g (sun4i_gpadc_data_irq_handler hw).
Proof. unfold sun4i_gpadc_data_irq_handler, skip. walk. Qed.

Lemma preserves_h3_irq_thread : preserves g (sunx8i_h3_irq_thread hw).
Proof. unfold sunx8i_h3_irq_thread. walk. Qed.

Hint Resolve preserves_data_irq_handler preserves_h3_irq_thread : driver.

Lemma preserves_run_irq_thread : preserves g (run_irq_thread hw).
Proof. unfold run_irq_thread, skip. walk. Qed.

Hint Resolve preserves_run_irq_thread : driver.

Lemma preserves_wait ms : preserves g (wait_for_completion_timeout hw ms).
Proof. unfold wait_for_completion_timeout. walk. Qed.

Lemma preserves_call_adc_chan_select chan :
  preserves g (call_adc_chan_select hw chan).
Proof. unfold call_adc_chan_select. walk. Qed.

Lemma preserves_irq_init : preserves g (sun4i_gpadc_irq_init hw).
Proof. unfold sun4i_gpadc_irq_init. walk. Qed.

End Frames.

#[export] Hint Resolve preserves_next_fault preserves_regmap_write
  preserves_regmap_read preserves_regmap_read_int preserves_complete preserves_reinit_completion
  preserves_mdelay preserves_mapM_emit preserves_data_irq_handler
  preserves_h3_irq_thread preserves_run_irq_thread preserves_wait
  preserves_call_adc_chan_select preserves_irq_init : driver.

#[export] Hint Extern 1 (Framed _) => exact _ : driver.

Section Calls.

Context (hw : gpadc_header).

Lemma inner_regmap_write reg val : emits_only inner_event (regmap_write reg val).
Proof. unfold regmap_write, skip. walk; exact I. Qed.

Lemma inner_regmap_read reg old : emits_only inner_event (regmap_read reg old).
Proof. unfold regmap_read. walk; exact I. Qed.

Hint Resolve inner_regmap_write inner_regmap_read : driver.

Lemma inner_regmap_read_int reg old :
  emits_only inner_event (regmap_read_int reg old).
Proof. unfold regmap_read_int. walk. Qed.

Hint Resolve inner_regmap_read_int : driver.

Lemma inner_mapM_update l :
  emits_only inner_event
    (mapM (fun i : nat => emit (EvThermalZoneUpdate (Z.of_nat i))) l).
Proof. induction l; simpl; walk; exact I. Qed.

Hint Resolve inner_mapM_update : driver.

Lemma inner_run_irq_thread : emits_only inner_event (run_irq_thread hw).
Proof.
  unfold run_irq_thread, sun4i_gpadc_data_irq_handler, sunx8i_h3_irq_thread,
    complete, skip.
  walk; exact I.
Qed.

Lemma inner_prepare channel irq :
  emits_only inner_event (sun4i_prepare_for_irq hw channel irq).
Proof.
  unfold sun4i_prepare_for_irq, pm_runtime_get_sync, reinit_completion,
    call_adc_chan_select, sun4i_gpadc_irq_init, mdelay, uninit, skip.
  walk; exact I.
Qed.

(** The preparation takes the power claim, once, and touches neither the
    lock nor the interrupt line nor the variant. *)
Lemma prepare_frame {C} (g : world -> C) `{!Framed g} channel irq :
  (forall v w, g (set_pm_usage v w) = g w) ->
  preserves g (sun4i_prepare_for_irq hw channel irq).
Proof.
  intros Hpm.
  unfold sun4i_prepare_for_irq, pm_runtime_get_sync, reinit_completion,
    uninit, skip.
  walk.
Qed.

Lemma prepare_pm_usage channel irq w r w' evs :
  sun4i_prepare_for_irq hw channel irq w = Done r w' evs ->
  pm_usage w' = pm_usage w + 1.
Proof.
  unfold sun4i_prepare_for_irq. intros H.
  apply bind_done in H as (? & w1 & ? & ? & H1 & H2 & _).
  assert (pm_usage w1 = pm_usage w + 1) as <-.
  { unfold pm_runtime_get_sync in H1.
    apply bind_done in H1 as (? & w0 & ? & ? & [= _ <- _] & [= _ <- _] & _).
    reflexivity. }
  cbv beta in H2.
  match type of H2 with
  | ?m w1 = _ => assert (preserves pm_usage m) as Hrest
  end.
  { unfold reinit_completion, uninit, skip. walk. }
  apply (Hrest _ _ _ _ H2).
Qed.

End Calls.

(** ** The ways through [sun4i_gpadc_read] *)

Section ReadPaths.

Context (hw : gpadc_header).

Lemma read_err_run ret val w :
  sun4i_gpadc_read_err ret val w = Done (ret, val) (read_exit w) exit_calls.
Proof. reflexivity. Qed.

Lemma read_prepare_failed channel val irq w r w1 e1 :
  sun4i_prepare_for_irq hw channel irq (read_entry irq w) = Done r w1 e1 ->
  r <> 0 ->
  sun4i_gpadc_read hw channel val irq w
  = Done (r, val) (read_exit w1) (EvMutexLock :: e1 ++ exit_calls).
Proof.
  intros Hp Hr. unfold sun4i_gpadc_read, mbind, M_bind. simpl.
  fold (read_entry irq w). rewrite Hp.
  apply Z.eqb_neq in Hr. rewrite Hr. simpl. reflexivity.
Qed.

Lemma read_timed_out channel val irq w w1 e1 w2 e2 :
  sun4i_prepare_for_irq hw channel irq (read_entry irq w) = Done 0 w1 e1 ->
  wait_for_completion_timeout hw 1000 (read_armed w1) = Done 0 w2 e2 ->
  sun4i_gpadc_read hw channel val irq w
  = Done (- (ETIMEDOUT hw), val) (read_exit w2)
      (EvMutexLock :: e1 ++ EvEnableIrq :: e2 ++ exit_calls).
Proof.
  intros Hp Hw. unfold sun4i_gpadc_read, mbind, M_bind. simpl.
  fold (read_entry irq w). rewrite Hp. simpl.
  fold (read_armed w1). rewrite Hw. simpl. reflexivity.
Qed.

Lemma read_completed channel val irq w w1 e1 t w2 e2 :
  sun4i_prepare_for_irq hw channel irq (read_entry irq w) = Done 0 w1 e1 ->
  wait_for_completion_timeout hw 1000 (read_armed w1) = Done t w2 e2 ->
  t <> 0 ->
  sun4i_gpadc_read hw channel val irq w
  = Done (0, if irq =? SUN4I_GPADC_IRQ_FIFO_DATA hw
             then int32 (adc_data w2) else temp_data w2)
      (read_exit w2)
      (EvMutexLock :: e1 ++ EvEnableIrq :: e2 ++ EvPmMarkLastBusy :: exit_calls).
Proof.
  intros Hp Hw Ht. unfold sun4i_gpadc_read, mbind, M_bind. simpl.
  fold (read_entry irq w). rewrite Hp. simpl.
  fold (read_armed w1). rewrite Hw.
  apply Z.eqb_neq in Ht. rewrite Ht. simpl.
  destruct (irq =? SUN4I_GPADC_IRQ_FIFO_DATA hw); reflexivity.
Qed.

(** A call that returns went one of the three ways. *)
Lemma read_inv channel val irq w res w' evs :
  sun4i_gpadc_read hw channel val irq w = Done res w' evs ->
  read_path hw channel val irq w res w' evs.
Proof.
  intros H.
  destruct (sun4i_prepare_for_irq hw channel irq (read_entry irq w))
    as [r w1 e1|e1] eqn:Hp.
  - destruct (Z.eq_dec r 0) as [->|Hr].
    + destruct (wait_for_completion_timeout hw 1000 (read_armed w1))
        as [t w2 e2|e2] eqn:Hw.
      * destruct (Z.eq_dec t 0) as [->|Ht].
        -- rewrite (read_timed_out _ _ _ _ _ _ _ _ Hp Hw) in H.
           injection H as <- <- <-. eapply path_timed_out; eauto.
        -- rewrite (read_completed _ _ _ _ _ _ _ _ _ Hp Hw Ht) in H.
           injection H as <- <- <-. eapply path_completed; eauto.
      * exfalso. revert H. unfold sun4i_gpadc_read, mbind, M_bind. simpl.
        fold (read_entry irq w). rewrite Hp. simpl.
        fold (read_armed w1). rewrite Hw. discriminate.
    + rewrite (read_prepare_failed _ _ _ _ _ _ _ Hp Hr) in H.
      injection H as <- <- <-. eapply path_prepare_failed; eauto.
  - exfalso. revert H. unfold sun4i_gpadc_read, mbind, M_bind. simpl.
    fold (read_entry irq w). rewrite Hp. discriminate.
Qed.

End ReadPaths.

Section Measure.

Context (hw : gpadc_header).

Lemma inner_not_elem (e : event) (l : list event) :
  Forall inner_event l -> ~ inner_event e -> e ∉ l.
Proof. intros Hl He Hin. apply He. rewrite Forall_forall in Hl. auto. Qed.

(** The wait returns after what the line delivered, with its own call
    last. *)
Lemma wait_inv ms w t w' evs :
  wait_for_completion_timeout hw ms w = Done t w' evs ->
  exists e, evs = e ++ [EvWaitForCompletion ms t] /\ Forall inner_event e.
Proof.
  unfold wait_for_completion_timeout. intros H.
  apply bind_done in H as ([] & w1 & e1 & e2 & H1 & H2 & ->).
  exists e1. split.
  - f_equal. revert H2. unfold mbind, M_bind, gets, modify, emit, mret, M_ret.
    destruct (completion w1); simpl; now intros [= <- _ <-].
  - pose proof (inner_run_irq_thread hw w) as Hi. now rewrite H1 in Hi.
Qed.

(** Whatever way a call goes, it ends in the common exit: the power claim
    is dropped, the line disabled and the lock released, in this order,
    and the claim taken by the preparation is the one dropped. *)
Lemma read_exit_common channel val irq w res w' evs :
  sun4i_gpadc_read hw channel val irq w = Done res w' evs ->
  (exists pre, evs = EvMutexLock :: pre ++ exit_calls) /\
  mutex_held w' = false /\ pm_usage w' = pm_usage w.
Proof.
  intros H. apply read_inv in H.
  destruct H as [r w1 e1 Hp Hr|w1 e1 w2 e2 Hp Hw|w1 e1 t w2 e2 Hp Hw Ht].
  - split; [eauto|]. split; [done|]. simpl.
    rewrite (prepare_pm_usage _ _ _ _ _ _ _ Hp). simpl. lia.
  - split; [exists (e1 ++ EvEnableIrq :: e2); now rewrite <- app_assoc|].
    split; [done|]. simpl.
    rewrite (preserves_wait hw pm_usage _ _ _ _ _ Hw). simpl.
    rewrite (prepare_pm_usage _ _ _ _ _ _ _ Hp). simpl. lia.
  - split.
    { exists (e1 ++ EvEnableIrq :: e2 ++ [EvPmMarkLastBusy]).
      now rewrite <- !app_assoc, <- !app_comm_cons, <- app_assoc. }
    split; [done|]. simpl.
    rewrite (preserves_wait hw pm_usage _ _ _ _ _ Hw). simpl.
    rewrite (prepare_pm_usage _ _ _ _ _ _ _ Hp). simpl. lia.
Qed.

(** C2.  When the preparation has succeeded and the wait on the completion
    returns 0 after the 1000 ms, [sun4i_gpadc_read] returns [-ETIMEDOUT]
    and leaves [*val] as it was; after the wait it drops the power claim,
    disables the interrupt and only then releases the lock, none of the
    three having happened before; at the return the lock is free, the line
    is disabled and the power claim taken by the call has been given
    back. *)
Theorem sun4i_gpadc_read_timeout channel val irq w w1 e1 w2 e2 :
  sun4i_prepare_for_irq hw channel irq (read_entry irq w) = Done 0 w1 e1 ->
  wait_for_completion_timeout hw 1000 (read_armed w1) = Done 0 w2 e2 ->
  exists w' pre,
    sun4i_gpadc_read hw channel val irq w
    = Done (- (ETIMEDOUT hw), val) w'
        (pre ++ [EvWaitForCompletion 1000 0; EvPmPutAutosuspend;
                 EvDisableIrq; EvMutexUnlock]) /\
    (EvDisableIrq ∉ pre) /\ (EvMutexUnlock ∉ pre) /\
    (EvPmPutAutosuspend ∉ pre) /\
    mutex_held w' = false /\
    irq_depth w' = S (Nat.pred (irq_depth w)) /\
    pm_usage w' = pm_usage w.
Proof.
  intros Hp Hw.
  pose proof (inner_prepare hw channel irq (read_entry irq w)) as Hi.
  rewrite Hp in Hi. simpl in Hi.
  destruct (wait_inv _ _ _ _ _ Hw) as (e & -> & He).
  exists (read_exit w2), (EvMutexLock :: e1 ++ EvEnableIrq :: e).
  split.
  { rewrite (read_timed_out hw channel val irq w _ _ _ _ Hp Hw).
    unfold exit_calls.
    now rewrite <- !app_assoc, <- !app_comm_cons, <- app_assoc. }
  assert (forall x, ~ inner_event x -> x <> EvMutexLock ->
            x <> EvEnableIrq -> x ∉ EvMutexLock :: e1 ++ EvEnableIrq :: e)
    as Hout.
  { intros x Hx H1 H2. rewrite not_elem_of_cons, not_elem_of_app,
      not_elem_of_cons. repeat split; auto using inner_not_elem. }
  do 3 (split; [apply Hout; simpl; auto; discriminate|]).
  split; [reflexivity|]. simpl. split.
  - rewrite (preserves_wait hw irq_depth _ _ _ _ _ Hw). simpl.
    now rewrite (prepare_frame hw irq_depth _ _ (fun _ _ => eq_refl) _ _ _ _ Hp).
  - rewrite (preserves_wait hw pm_usage _ _ _ _ _ Hw). simpl.
    rewrite (prepare_pm_usage _ _ _ _ _ _ _ Hp). simpl. lia.
Qed.

(** C10.  When the preparation fails inside [sun4i_gpadc_read], the call
    returns the preparation's error with [*val] untouched; its kernel calls
    are the lock, those of the preparation, and the common exit: no wait on
    the completion and no [enable_irq], but one [disable_irq].  The lock
    is released, the power claim given back, and the disable depth of the
    interrupt is one more than before the call. *)
Theorem sun4i_gpadc_read_prepare_failure channel val irq w r w1 e1 :
  sun4i_prepare_for_irq hw channel irq (read_entry irq w) = Done r w1 e1 ->
  r <> 0 ->
  exists w',
    sun4i_gpadc_read hw channel val irq w
    = Done (r, val) w'
        (EvMutexLock :: e1 ++ [EvPmPutAutosuspend; EvDisableIrq; EvMutexUnlock]) /\
    (forall ms t, EvWaitForCompletion ms t ∉ e1) /\
    (EvEnableIrq ∉ e1) /\ (EvDisableIrq ∉ e1) /\
    mutex_held w' = false /\
    pm_usage w' = pm_usage w /\
    irq_depth w' = S (irq_depth w).
Proof.
  intros Hp Hr. exists (read_exit w1).
  pose proof (inner_prepare hw channel irq (read_entry irq w)) as Hi.
  rewrite Hp in Hi. simpl in Hi.
  split; [now apply read_prepare_failed|].
  split; [intros ms t; now apply inner_not_elem|].
  split; [now apply inner_not_elem|].
  split; [now apply inner_not_elem|].
  split; [done|]. simpl. split.
  - rewrite (prepare_pm_usage _ _ _ _ _ _ _ Hp). simpl. lia.
  - now rewrite (prepare_frame hw irq_depth _ _ (fun _ _ => eq_refl) _ _ _ _ Hp).
Qed.

End Measure.

Section Handler.

Context (hw : gpadc_header).




End Handler.

Section Reads.

Context (hw : gpadc_header).

Lemma events_of_regmap_write reg val w :
  events_of (regmap_write reg val w) = [EvRegWrite reg (u32 val) (hd 0 (faults w))].
Proof.
  unfold regmap_write, next_fault, skip, mbind, M_bind, modify, emit, mret, M_ret.
  destruct (hd 0 (faults w) =? 0); reflexivity.
Qed.

(** The preparation and the whole call leave the bound variant alone. *)
Lemma preserves_data_prepare channel irq :
  preserves data (sun4i_prepare_for_irq hw channel irq).
Proof. now apply prepare_frame. Qed.

Hint Resolve preserves_data_prepare : driver.

Lemma preserves_data_read channel val irq :
  preserves data (sun4i_gpadc_read hw channel val irq).
Proof.
  unfold sun4i_gpadc_read, sun4i_gpadc_read_err, mutex_lock, mutex_unlock,
    enable_irq, disable_irq, pm_runtime_put_autosuspend,
    pm_runtime_mark_last_busy.
  walk.
Qed.

Hint Resolve preserves_data_read : driver.

Lemma preserves_data_temp_read val sensor :
  preserves data (sun4i_gpadc_temp_read hw val sensor).
Proof.
  unfold sun4i_gpadc_temp_read, pm_runtime_get_sync, pm_runtime_put_autosuspend,
    pm_runtime_mark_last_busy.
  walk.
Qed.

(** The measurement path has no check of the channel or of the variant:
    whatever the channel and the mode, a call of [sun4i_gpadc_read] starts
    with the register write of the preparation.  The voltage channels that
    callers can name are the four of the channel table, all below 4.  The
    one rejection with [-EINVAL] is that of [sun4i_gpadc_read_raw] for an
    info mask it does not know, made without touching the device. *)
Lemma channel_not_validated :
  (forall channel val irq w, exists ret rest,
      events_of (sun4i_gpadc_read hw channel val irq w)
      = EvMutexLock :: EvPmGetSync :: EvReinitCompletion
        :: EvRegWrite (SUN4I_GPADC_INT_FIFOC hw)
             (u32 (Z.lor (SUN4I_GPADC_INT_FIFOC_TP_FIFO_TRIG_LEVEL hw 1)
                         (SUN4I_GPADC_INT_FIFOC_TP_FIFO_FLUSH hw))) ret
        :: rest) /\
  (forall chan, chan ∈ sun4i_gpadc_channels ->
      chan_type chan = IIO_VOLTAGE -> 0 <= channel chan < 4) /\
  (forall chan val val2 code w,
      sun4i_gpadc_read_raw hw chan val val2 (IIO_CHAN_INFO_other code) w
      = Done (- (EINVAL hw), val, val2) w []).
Proof.
  split; [|split].
  - intros channel val irq w. unfold sun4i_gpadc_read.
    rewrite (events_of_bind mutex_lock _ w tt (set_mutex_held true w)
               [EvMutexLock] eq_refl).
    rewrite modify_bind.
    match goal with
    | |- context [events_of ((?m ≫= ?k) ?w0)] =>
        destruct (events_of_bind_ex m k w0) as [rest1 ->]
    end.
    unfold sun4i_prepare_for_irq.
    set (w1 := set_irq_data_type irq (set_mutex_held true w)).
    rewrite (events_of_bind pm_runtime_get_sync _ w1 tt
               (set_pm_usage (pm_usage w1 + 1) w1) [EvPmGetSync] eq_refl).
    set (w2 := set_pm_usage (pm_usage w1 + 1) w1).
    rewrite (events_of_bind reinit_completion _ w2 tt
               (set_completion 0%nat w2) [EvReinitCompletion] eq_refl).
    match goal with
    | |- context [events_of ((?m ≫= ?k) ?w0)] =>
        destruct (events_of_bind_ex m k w0) as [rest2 ->]
    end.
    rewrite events_of_regmap_write. simpl. eauto.
  - intros chan Hin Hty. unfold sun4i_gpadc_channels in Hin.
    rewrite !elem_of_cons, elem_of_nil in Hin.
    destruct Hin as [-> | [-> | [-> | [-> | [-> | [] ] ] ] ] ]; simpl in *; (lia || discriminate).
  - reflexivity.
Qed.

(** C8.  Each of the voltage channels 0 to 3 is in the channel table, and
    for a voltage channel [sun4i_gpadc_read_raw] answers the scale request
    with [IIO_VAL_INT_PLUS_NANO], integer part 0 and nano part 732421875,
    without touching the device; this is 3000/4096 exactly. *)
Theorem voltage_scale_fixed_point (n : Z) :
  0 <= n <= 3 ->
  exists chan,
    chan ∈ sun4i_gpadc_channels /\
    chan_type chan = IIO_VOLTAGE /\ channel chan = n /\
    (forall val val2 w,
        sun4i_gpadc_read_raw hw chan val val2 IIO_CHAN_INFO_SCALE w
        = Done (IIO_VAL_INT_PLUS_NANO hw, 0, 732421875) w []) /\
    4096 * (0 * 10 ^ 9 + 732421875) = 3000 * 10 ^ 9.
Proof.
  intros Hn.
  assert (n = 0 \/ n = 1 \/ n = 2 \/ n = 3) as [-> | [-> | [-> | ->] ] ] by lia.
  - exists (SUN4I_GPADC_ADC_CHANNEL 0 "adc_chan0").
    unfold sun4i_gpadc_channels. split; [repeat constructor|done].
  - exists (SUN4I_GPADC_ADC_CHANNEL 1 "adc_chan1").
    unfold sun4i_gpadc_channels. split; [repeat constructor|done].
  - exists (SUN4I_GPADC_ADC_CHANNEL 2 "adc_chan2").
    unfold sun4i_gpadc_channels. split; [repeat constructor|done].
  - exists (SUN4I_GPADC_ADC_CHANNEL 3 "adc_chan3").
    unfold sun4i_gpadc_channels. split; [repeat constructor|done].
Qed.

(** C7.  Whenever the temperature read behind the thermal callback returns
    0 with raw code [r], [sun4i_gpadc_get_temp] returns 0 and reports
    [(r + temp_offset) * temp_scale], computed in C [int]s with the
    offset and scale of the bound variant, whatever the sensor index.  For
    each variant of the match table the [int] arithmetic is exact on raw
    codes of up to 23 bits. *)
Theorem get_temp_linear w d sensor temp r w1 e1 :
  data w = Some d ->
  sun4i_gpadc_temp_read hw (stack_junk w) sensor w = Done (0, r) w1 e1 ->
  sun4i_gpadc_get_temp hw sensor temp w
  = Done (0, int32 (int32 (r + temp_offset d) * temp_scale d)) w1 e1 /\
  (d ∈ (sun4i_gpadc_of_id hw).*2 -> - 2 ^ 23 <= r <= 2 ^ 23 ->
   int32 (int32 (r + temp_offset d) * temp_scale d)
   = (r + temp_offset d) * temp_scale d).
Proof.
  intros Hd Hrun. split.
  - assert (data w1 = Some d) as Hd1.
    { rewrite <- Hd. eapply preserves_data_temp_read, Hrun. }
    unfold sun4i_gpadc_get_temp, uninit. rewrite !gets_bind.
    rewrite (bind_run _ _ _ _ _ _ Hrun). simpl.
    unfold sun4i_gpadc_temp_scale, sun4i_gpadc_temp_offset.
    unfold mbind, M_bind, info_data, mret, M_ret.
    repeat (rewrite Hd1; simpl). now rewrite app_nil_r.
  - intros Hin Hr. unfold sun4i_gpadc_of_id in Hin. simpl in Hin.
    rewrite !elem_of_cons, elem_of_nil in Hin.
    destruct Hin as [-> | [-> | [-> | [-> | [-> | [] ] ] ] ] ]; simpl;
      rewrite (int32_id (r + _)) by lia; apply int32_id; lia.
Qed.

End Reads.

Section Resume.

Context (hw : gpadc_header).

(** What a register holds once it has been written does not depend on the
    register file the writes started from. *)
Lemma insert5_lookup_indep (m m' : gmap Z Z) k k1 k2 k3 k4 v v1 v2 v3 v4 :
  <[k4:=v4]> (<[k3:=v3]> (<[k2:=v2]> (<[k:=v]> (<[k1:=v1]> m)))) !! k
  = <[k4:=v4]> (<[k3:=v3]> (<[k2:=v2]> (<[k:=v]> (<[k1:=v1]> m')))) !! k.
Proof. rewrite !lookup_insert. repeat case_decide; try done. Qed.

(** Runs a callback on a world given by its fields. *)
Ltac run_comp :=
  lazy beta iota zeta delta
    [sun4i_gpadc_runtime_resume sun4i_ths_resume sun8i_h3_ths_resume
     sun8i_h3_calibrate uninit regmap_write regmap_read next_fault skip
     info_data mbind M_bind gets modify emit mret M_ret
     set_regs set_faults
     completion temp_data adc_data irq_data_type data calibration_data regs
     faults irq_depth irq_raised mutex_held pm_usage stack_junk
     hd tl Z.eqb negb app].

Lemma sun4i_ths_resume_twice w d :
  data w = Some d -> faults w = [] ->
  exists w1 e1 w2 e2,
    sun4i_ths_resume hw w = Done 0 w1 e1 /\
    sun4i_ths_resume hw w1 = Done 0 w2 e2 /\
    data w1 = Some d /\ faults w1 = [] /\
    regs w2 = regs w1.
Proof.
  intros Hd Hf. destruct w. simpl in Hd, Hf. subst.
  eexists _, _, _, _. split; [run_comp; reflexivity|].
  split; [run_comp; reflexivity|].
  split; [reflexivity|]. split; [reflexivity|].
  run_comp.
  apply map_eq. intros i. rewrite !lookup_insert. repeat case_decide; done.
Qed.

Lemma sun8i_h3_ths_resume_twice w :
  faults w = [] ->
  exists w1 e1 w2 e2,
    sun8i_h3_ths_resume hw w = Done 0 w1 e1 /\
    sun8i_h3_ths_resume hw w1 = Done 0 w2 e2 /\
    data w1 = data w /\ faults w1 = [] /\
    regs w2 = regs w1.
Proof.
  intros Hf. destruct w. simpl in Hf. subst.
  eexists _, _, _, _. split; [run_comp; reflexivity|].
  split; [run_comp; reflexivity|].
  split; [reflexivity|]. split; [reflexivity|].
  run_comp.
  match goal with
  | |- context [<[_:=u32 (Z.lor _ (u32 (default 0 (?a !! _))))]> ?b] =>
      match b with
      | context [<[_:=u32 (Z.lor _ (u32 (default 0 (?c !! _))))]> _] =>
          rewrite (insert5_lookup_indep _ regs0)
      end
  end.
  apply map_eq. intros i. rewrite !lookup_insert. repeat case_decide; done.
Qed.

(** C5.  On a device bound to any variant of the match table, with a
    register port that does not fail, running the runtime-resume callback
    a second time right after the first leaves the register file as the
    first run left it. *)
Theorem runtime_resume_idempotent w d :
  data w = Some d ->
  d ∈ (sun4i_gpadc_of_id hw).*2 ->
  faults w = [] ->
  exists w1 e1 w2 e2,
    sun4i_gpadc_runtime_resume hw w = Done 0 w1 e1 /\
    sun4i_gpadc_runtime_resume hw w1 = Done 0 w2 e2 /\
    regs w2 = regs w1.
Proof.
  intros Hd Hin Hf.
  assert (ths_resume d = Some sun4i_ths_resume_fn \/
          ths_resume d = Some sun8i_h3_ths_resume_fn) as Hk.
  { unfold sun4i_gpadc_of_id in Hin. simpl in Hin.
    rewrite !elem_of_cons, elem_of_nil in Hin.
    destruct Hin as [-> | [-> | [-> | [-> | [-> | [] ] ] ] ] ]; auto. }
  unfold sun4i_gpadc_runtime_resume.
  destruct Hk as [Hk|Hk].
  - destruct (sun4i_ths_resume_twice w d Hd Hf)
      as (w1 & e1 & w2 & e2 & H1 & H2 & Hd1 & _ & Hregs).
    exists w1, e1, w2, e2.
    rewrite (info_data_bind _ _ w d Hd), (info_data_bind _ _ w1 d Hd1), Hk.
    auto.
  - destruct (sun8i_h3_ths_resume_twice w Hf)
      as (w1 & e1 & w2 & e2 & H1 & H2 & Hd1 & _ & Hregs).
    rewrite Hd in Hd1.
    exists w1, e1, w2, e2.
    rewrite (info_data_bind _ _ w d Hd), (info_data_bind _ _ w1 d Hd1), Hk.
    auto.
Qed.

(** C6, as the driver has it.  On the variant with the calibration store
    the resume callback runs the calibration step, which does nothing, and
    ends with a read of the control register followed by the write of the
    value read with the temperature-sense bit set.  The value read is the
    one the callback itself wrote earlier: the register file it leaves does
    not depend on what the control register held before the call, and when
    the status, filter and interrupt registers are other registers than the
    control register, the control register ends as the sense bit over the
    acquisition field the callback wrote. *)
Theorem h3_resume_control_register w :
  faults w = [] ->
  sun8i_h3_calibrate w = Done 0 w [] /\
  exists w' pre v,
    (sun8i_h3_ths_resume hw w
     = Done 0 w'
         (pre ++ [EvRegRead (SUN8I_H3_THS_CTRL2 hw) 0;
                  EvRegWrite (SUN8I_H3_THS_CTRL2 hw)
                    (u32 (Z.lor (SUN8I_H3_THS_TEMP_SENSE_EN0 hw) v)) 0])) /\
    (regs w' !! SUN8I_H3_THS_CTRL2 hw
     = Some (u32 (Z.lor (SUN8I_H3_THS_TEMP_SENSE_EN0 hw) v))) /\
    (forall x, exists w'' evs,
        sun8i_h3_ths_resume hw
          (set_regs (<[SUN8I_H3_THS_CTRL2 hw := x]> (regs w)) w)
        = Done 0 w'' evs /\
        regs w'' = regs w') /\
    (SUN8I_H3_THS_CTRL2 hw <> SUN8I_H3_THS_STAT hw ->
     SUN8I_H3_THS_CTRL2 hw <> SUN8I_H3_THS_FILTER hw ->
     SUN8I_H3_THS_CTRL2 hw <> SUN8I_H3_THS_INTC hw ->
     v = u32 (SUN8I_H3_THS_ACQ1 hw 63)).
Proof.
  intros Hf. split; [reflexivity|].
  destruct w. simpl in Hf. subst.
  eexists _, [_; _; _; _; _], _. split; [run_comp; reflexivity|].
  split; [run_comp; apply lookup_insert_eq|].
  split.
  - intros x. eexists _, _. split; [run_comp; reflexivity|].
    run_comp.
    rewrite (insert5_lookup_indep _ regs0).
    apply map_eq. intros i. rewrite !lookup_insert. repeat case_decide; done.
  - intros H1 H2 H3.
    do 3 (rewrite lookup_insert_ne by congruence).
    rewrite lookup_insert_eq. simpl. apply u32_idemp.
Qed.

End Resume.

(** ** The probe *)

Section Returns.

Context (I : world -> Prop).

Lemma returns_bind {A B} (Q : B -> Prop) (m : M A) (k : A -> M B) :
  returns I (fun _ => True) m -> (forall a, returns I Q (k a)) ->
  returns I Q (m ≫= k).
Proof.
  intros Hm Hk w Hw. destruct (Hm w Hw) as (a & w1 & e1 & H1 & Hw1 & _).
  destruct (Hk a w1 Hw1) as (b & w2 & e2 & H2 & Hw2 & Hb).
  exists b, w2, (e1 ++ e2). rewrite (bind_run _ _ _ _ _ _ H1), H2. auto.
Qed.

Lemma returns_ret {A} (Q : A -> Prop) a : Q a -> returns I Q (mret a).
Proof. intros Ha w Hw. exists a, w, []. auto. Qed.

Lemma returns_emit e : returns I (fun _ => True) (emit e).
Proof. intros w Hw. exists tt, w, [e]. auto. Qed.

Lemma returns_modify f :
  (forall w, I w -> I (f w)) -> returns I (fun _ => True) (modify f).
Proof. intros Hf w Hw. exists tt, (f w), []. auto. Qed.

End Returns.

Lemma returns_info_data {A} d (f : gpadc_data -> A) :
  returns (fun w => data w = Some d) (fun _ => True) (info_data f).
Proof.
  intros w Hw. exists (f d), w, []. unfold info_data. rewrite Hw. auto.
Qed.

#[export] Hint Resolve returns_emit returns_info_data : driver.

Ltac step_returns :=
  match goal with
  | |- returns _ _ (_ ≫= _) => apply returns_bind
  | |- returns _ _ (mret _) => apply returns_ret
  | |- returns _ _ (modify _) => apply returns_modify
  | |- returns _ _ (if negb (?x =? 0) then _ else _) =>
      destruct (Z.eqb_spec x 0); simpl
  | |- returns _ _ (if ?c then _ else _) => destruct c
  | |- forall _, _ => intro
  end.

Section Probe.

Context (hw : gpadc_header) (pdev : platform_device) (d : gpadc_data).

Ltac stage :=
  unfold stage_returns, probe_resources_ok, probe_dt_disable_bus_clk,
    probe_dt_assert_reset, disable_irq, skip;
  repeat step_returns; eauto with driver; try (intuition congruence).

Lemma probe_dt_mod_clk_returns : stage_returns pdev d (probe_dt_mod_clk pdev).
Proof. unfold probe_dt_mod_clk. stage. Qed.

Lemma probe_dt_bus_clk_returns : stage_returns pdev d (probe_dt_bus_clk pdev).
Proof.
  pose proof probe_dt_mod_clk_returns. unfold probe_dt_bus_clk. stage.
Qed.

Lemma probe_dt_reset_returns : stage_returns pdev d (probe_dt_reset pdev).
Proof.
  pose proof probe_dt_bus_clk_returns. unfold probe_dt_reset. stage.
Qed.

Lemma probe_dt_irq_returns : stage_returns pdev d (probe_dt_irq pdev).
Proof.
  pose proof probe_dt_reset_returns. unfold probe_dt_irq. stage.
Qed.

Lemma probe_dt_regmap_returns : stage_returns pdev d (probe_dt_regmap pdev).
Proof.
  pose proof probe_dt_irq_returns. unfold probe_dt_regmap. stage.
Qed.

Lemma preserves_calibration_probe_dt_regmap :
  preserves calibration_data (probe_dt_regmap pdev).
Proof.
  unfold probe_dt_regmap, probe_dt_irq, probe_dt_reset, probe_dt_bus_clk,
    probe_dt_mod_clk, probe_dt_disable_bus_clk, probe_dt_assert_reset,
    disable_irq, skip.
  walk.
Qed.

(** C9.  On a variant that supports the calibration store, with the
    calibration cell found, the probe returns whatever the length of the
    cell content.  A content of exactly 8 bytes is split, in order, into
    the two calibration words; with any other length the calibration words
    stay as they were and an error is logged.  In both cases the probe goes
    on with its later steps, and returns 0 when they get their
    resources. *)
Theorem probe_dt_calibration w blob :
  of_match_data pdev = Some d ->
  supports_nvmem d = true ->
  ioremap_err pdev = 0 ->
  nvmem_calibration pdev = NvmemCell blob ->
  exists ret w' evs,
    sun4i_gpadc_probe_dt hw pdev w = Done ret w' evs /\
    (forall b0 b1 b2 b3 b4 b5 b6 b7,
        blob = [b0; b1; b2; b3; b4; b5; b6; b7] ->
        calibration_data w' = (le32 b0 b1 b2 b3, le32 b4 b5 b6 b7)) /\
    (length blob <> 8%nat ->
        calibration_data w' = calibration_data w /\
        EvDevErr "Calibration data has wrong size" ∈ evs) /\
    (probe_resources_ok pdev -> ret = 0).
Proof.
  intros Hm Hnv Hio Hcell. unfold sun4i_gpadc_probe_dt.
  rewrite modify_bind, gets_bind. simpl. rewrite Hm. simpl.
  rewrite Hio. simpl.
  rewrite (info_data_bind _ _ (set_data (Some d) w) d eq_refl), Hnv, Hcell.
  destruct (Z.eqb_spec (Z.of_nat (length blob)) 8) as [Hlen|Hlen]; simpl.
  - rewrite modify_bind.
    set (w1 := set_calibration_data _ _).
    destruct (probe_dt_regmap_returns w1 eq_refl) as (ret & w' & evs & Hrun & _ & Hret).
    exists ret, w', evs. split; [done|]. split; [|split; [lia|done]].
    intros b0 b1 b2 b3 b4 b5 b6 b7 ->.
    rewrite (preserves_calibration_probe_dt_regmap _ _ _ _ Hrun).
    reflexivity.
  - set (w1 := set_data (Some d) w).
    destruct (probe_dt_regmap_returns w1 eq_refl) as (ret & w' & evs & Hrun & _ & Hret).
    exists ret, w', (EvDevErr "Calibration data has wrong size" :: evs).
    split.
    { rewrite (bind_run _ _ _ _ _ _
                 (eq_refl : emit (EvDevErr "Calibration data has wrong size") w1
                            = Done tt w1 [_])).
      now rewrite Hrun. }
    split; [|split; [|done]].
    + intros b0 b1 b2 b3 b4 b5 b6 b7 ->. now destruct Hlen.
    + intros _. split; [|constructor].
      now rewrite (preserves_calibration_probe_dt_regmap _ _ _ _ Hrun).
Qed.

End Probe.

Section Delays.

Context (hw : gpadc_header).

Ltac run_prepare :=
  lazy beta iota zeta delta
    [sun4i_prepare_for_irq pm_runtime_get_sync reinit_completion
     sun4i_gpadc_irq_init call_adc_chan_select mdelay
     uninit regmap_write regmap_read next_fault skip
     info_data mbind M_bind gets modify emit mret M_ret
     set_regs set_faults set_pm_usage set_completion
     completion temp_data adc_data irq_data_type data calibration_data regs
     faults irq_depth irq_raised mutex_held pm_usage stack_junk
     hd tl negb app events_of];
  change (0 =? 0) with true.

(** The delays of a preparation whose register accesses succeed.  The
    100 ms delay is made when the mode bit is not set in the control
    register as the request finds it, whatever the mode requested. *)
Lemma prepare_temperature_delays w d channel irq :
  data w = Some d -> faults w = [] ->
  SUN4I_GPADC_INT_FIFOC hw <> SUN4I_GPADC_CTRL1 hw ->
  (irq =? SUN4I_GPADC_IRQ_FIFO_DATA hw) = false ->
  mdelays (events_of (sun4i_prepare_for_irq hw channel irq w))
  = if Z.land (u32 (default 0 (regs w !! SUN4I_GPADC_CTRL1 hw)))
         (tp_adc_select d) =? tp_adc_select d
    then [] else [100].
Proof.
  intros Hd Hf Hne Hirq. destruct w. simpl in Hd, Hf. subst.
  repeat run_prepare. rewrite Hirq. repeat run_prepare.
  rewrite lookup_insert_ne by done.
  destruct (support_irq d); repeat run_prepare;
    destruct (Z.land _ _ =? _); reflexivity.
Qed.

(** A voltage request adds the 10 ms delay when the channel bits of the
    control register are not those of the channel requested. *)
Lemma prepare_voltage_delays w d f channel :
  data w = Some d -> faults w = [] ->
  adc_chan_select d = Some f ->
  SUN4I_GPADC_INT_FIFOC hw <> SUN4I_GPADC_CTRL1 hw ->
  let reg := u32 (default 0 (regs w !! SUN4I_GPADC_CTRL1 hw)) in
  let chan :=
    match f with
    | sun4i_gpadc_chan_select_fn => sun4i_gpadc_chan_select hw (u32 channel)
    | sun6i_gpadc_chan_select_fn => sun6i_gpadc_chan_select hw (u32 channel)
    end in
  mdelays (events_of (sun4i_prepare_for_irq hw channel
                        (SUN4I_GPADC_IRQ_FIFO_DATA hw) w))
  = (if Z.land reg (adc_chan_mask d) =? chan then [] else [10])
    ++ (if Z.land reg (tp_adc_select d) =? tp_adc_select d then [] else [100]).
Proof.
  intros Hd Hf Hsel Hne. destruct w. simpl in Hd, Hf. subst.
  repeat first [rewrite Hsel | rewrite Z.eqb_refl | progress run_prepare].
  rewrite lookup_insert_ne by done.
  destruct f;
    repeat first [rewrite Hsel | progress run_prepare];
    destruct (Z.land _ (adc_chan_mask d) =? _);
    repeat first [rewrite Hsel | progress run_prepare];
    destruct (support_irq d); repeat run_prepare;
    destruct (Z.land _ (tp_adc_select d) =? _); reflexivity.
Qed.

End Delays.

(** ** The driver on the sample devices *)

(** A temperature request on the A10 device during which the device raises
    no interrupt. *)
Lemma sun4i_gpadc_read_timeout_witness :
  let irq := SUN4I_GPADC_IRQ_TEMP_DATA sunxi_header in
  let w := a10_device in
  let prep := sun4i_prepare_for_irq sunxi_header 0 irq (read_entry irq w) in
  let w1 := world_of w prep in
  let wait := wait_for_completion_timeout sunxi_header 1000 (read_armed w1) in
  prep = Done 0 w1 (events_of prep) /\
  wait = Done 0 (world_of w1 wait) (events_of wait) /\
  exists w' pre,
    sun4i_gpadc_read sunxi_header 0 7 irq w
    = Done (- (ETIMEDOUT sunxi_header), 7) w'
        (pre ++ [EvWaitForCompletion 1000 0; EvPmPutAutosuspend;
                 EvDisableIrq; EvMutexUnlock]) /\
    mutex_held w' = false /\ irq_depth w' = 1%nat /\ pm_usage w' = 0.
Proof.
  intros irq w prep w1 wait.
  assert (prep = Done 0 w1 (events_of prep)) as Hprep
    by (vm_compute; reflexivity).
  assert (wait = Done 0 (world_of w1 wait) (events_of wait)) as Hwait
    by (vm_compute; reflexivity).
  split; [exact Hprep|]. split; [exact Hwait|].
  destruct (sun4i_gpadc_read_timeout sunxi_header 0 7 irq w _ _ _ _
              Hprep Hwait) as (w' & pre & Hrun & _ & _ & _ & Hm & Hd & Hp).
  exists w', pre. auto.
Defined.

(** A temperature request on the A10 device whose first register write
    fails with -5, an I/O error. *)
Lemma sun4i_gpadc_read_prepare_failure_witness :
  let irq := SUN4I_GPADC_IRQ_TEMP_DATA sunxi_header in
  let w := set_faults [-5] a10_device in
  let prep := sun4i_prepare_for_irq sunxi_header 0 irq (read_entry irq w) in
  prep = Done (-5) (world_of w prep) (events_of prep) /\
  -5 <> 0 /\
  exists w',
    sun4i_gpadc_read sunxi_header 0 7 irq w
    = Done (-5, 7) w'
        (EvMutexLock :: events_of prep
           ++ [EvPmPutAutosuspend; EvDisableIrq; EvMutexUnlock]) /\
    irq_depth w' = 2%nat.
Proof.
  intros irq w prep.
  assert (prep = Done (-5) (world_of w prep) (events_of prep)) as Hprep
    by (vm_compute; reflexivity).
  assert (-5 <> 0) as Hne by discriminate.
  split; [exact Hprep|]. split; [exact Hne|].
  destruct (sun4i_gpadc_read_prepare_failure sunxi_header 0 7 irq w _ _ _
              Hprep Hne) as (w' & Hrun & _ & _ & _ & _ & _ & Hdepth).
  exists w'. auto.
Defined.

(** Two runtime resumes of the H3 thermal sensor. *)
Lemma runtime_resume_idempotent_witness :
  data (h3_device 0) = Some (sun8i_h3_ths_data sunxi_header) /\
  sun8i_h3_ths_data sunxi_header ∈ (sun4i_gpadc_of_id sunxi_header).*2 /\
  faults (h3_device 0) = [] /\
  exists w1 e1 w2 e2,
    sun4i_gpadc_runtime_resume sunxi_header (h3_device 0) = Done 0 w1 e1 /\
    sun4i_gpadc_runtime_resume sunxi_header w1 = Done 0 w2 e2 /\
    regs w2 = regs w1.
Proof.
  assert (sun8i_h3_ths_data sunxi_header ∈ (sun4i_gpadc_of_id sunxi_header).*2)
    as Hin by (simpl; repeat constructor).
  split; [reflexivity|]. split; [exact Hin|]. split; [reflexivity|].
  exact (runtime_resume_idempotent sunxi_header (h3_device 0) _
           eq_refl Hin eq_refl).
Defined.

(** The resume of an H3 thermal sensor whose control register holds 2. *)
Lemma h3_resume_control_register_witness :
  faults (h3_device 2) = [] /\
  exists w',
    regs w' = regs (world_of (h3_device 2)
                      (sun8i_h3_ths_resume sunxi_header (h3_device 2))) /\
    (regs w' !! 0x40) = Some 4128769.
Proof.
  split; [reflexivity|].
  destruct (h3_resume_control_register sunxi_header (h3_device 2) eq_refl)
    as (_ & w' & pre & v & Hrun & _ & _ & _).
  exists w'. rewrite Hrun. simpl. split; [reflexivity|].
  assert (world_of (h3_device 2)
            (sun8i_h3_ths_resume sunxi_header (h3_device 2)) = w') as <-
    by now rewrite Hrun.
  vm_compute. reflexivity.
Defined.

(** A thermal read on the A10 device, the interrupt arriving with 77 in the
    temperature data register. *)
Lemma get_temp_linear_witness :
  let w := set_irq_raised true a10_device in
  let read := sun4i_gpadc_temp_read sunxi_header (stack_junk w) 0 w in
  data w = Some (sun4i_gpadc_data sunxi_header) /\
  read = Done (0, 77) (world_of w read) (events_of read) /\
  sun4i_gpadc_get_temp sunxi_header 0 0 w
  = Done (0, (77 + -1932) * 133) (world_of w read) (events_of read).
Proof.
  intros w read.
  assert (read = Done (0, 77) (world_of w read) (events_of read)) as Hread
    by (vm_compute; reflexivity).
  split; [reflexivity|]. split; [exact Hread|].
  destruct (get_temp_linear sunxi_header w (sun4i_gpadc_data sunxi_header)
              0 0 77 _ _ eq_refl Hread) as [Hrun _].
  exact Hrun.
Defined.

(** The scale of voltage channel 2. *)
Lemma voltage_scale_fixed_point_witness :
  0 <= 2 <= 3 /\
  exists chan,
    chan ∈ sun4i_gpadc_channels /\ channel chan = 2 /\
    sun4i_gpadc_read_raw sunxi_header chan 0 0 IIO_CHAN_INFO_SCALE a10_device
    = Done (IIO_VAL_INT_PLUS_NANO sunxi_header, 0, 732421875) a10_device [].
Proof.
  assert (0 <= 2 <= 3) as Hn by lia.
  split; [exact Hn|].
  destruct (voltage_scale_fixed_point sunxi_header 2 Hn)
    as (chan & Hin & _ & Hch & Hrun & _).
  exists chan. auto.
Defined.

(** The probe of an H3 thermal sensor whose calibration cell holds the
    bytes 1 to 8. *)
Lemma probe_dt_calibration_witness :
  let blob := [Byte.x01; Byte.x02; Byte.x03; Byte.x04;
               Byte.x05; Byte.x06; Byte.x07; Byte.x08] in
  let pdev := h3_platform_device blob in
  of_match_data pdev = Some (sun8i_h3_ths_data sunxi_header) /\
  supports_nvmem (sun8i_h3_ths_data sunxi_header) = true /\
  ioremap_err pdev = 0 /\
  nvmem_calibration pdev = NvmemCell blob /\
  exists w' evs,
    sun4i_gpadc_probe_dt sunxi_header pdev unbound_device = Done 0 w' evs /\
    calibration_data w' = (0x04030201, 0x08070605).
Proof.
  intros blob pdev. do 4 (split; [reflexivity|]).
  destruct (probe_dt_calibration sunxi_header pdev
              (sun8i_h3_ths_data sunxi_header)
              unbound_device blob eq_refl eq_refl eq_refl eq_refl)
    as (ret & w' & evs & Hrun & Hwords & _ & Hret).
  exists w', evs. split.
  - rewrite Hrun. f_equal. apply Hret. unfold probe_resources_ok. simpl. tauto.
  - apply (Hwords _ _ _ _ _ _ _ _ eq_refl).
Defined.


(** C4 against the driver.  On the A33 and H3 devices, whose variants have
    no ADC channels and leave [adc_chan_select] out, the raw read of each
    of the four voltage channels of the channel table is not rejected:
    with the lock and the power claim taken it writes the interrupt and
    FIFO control register, reads the control register and calls through
    the NULL pointer, and no error is returned. *)
Theorem unsupported_voltage_read_not_rejected :
  adc_channel (sun8i_a33_gpadc_data sunxi_header) = false /\
  adc_chan_select (sun8i_a33_gpadc_data sunxi_header) = None /\
  adc_channel (sun8i_h3_ths_data sunxi_header) = false /\
  adc_chan_select (sun8i_h3_ths_data sunxi_header) = None /\
  Forall (fun w =>
    Forall (fun chan =>
      chan_type chan = IIO_VOLTAGE /\
      sun4i_gpadc_read_raw sunxi_header chan 0 0 IIO_CHAN_INFO_RAW w
      = Oops [EvMutexLock; EvPmGetSync; EvReinitCompletion;
              EvRegWrite 16 272 0; EvRegRead 4 0])
      (take 4 sun4i_gpadc_channels))
    [a33_device; h3_device 0].
Proof.
  do 4 (split; [reflexivity|]).
  repeat constructor; vm_compute; reflexivity.
Qed.

(** C6 does not hold on the driver.  Bit 1 of the H3 control register, which
    is not the temperature-sense bit, is set before the resume and clear
    after it. *)
Lemma h3_resume_overwrites_control_register :
  let w := h3_device 2 in
  let w' := world_of w (sun8i_h3_ths_resume sunxi_header w) in
  Z.testbit (default 0 (regs w !! SUN8I_H3_THS_CTRL2 sunxi_header)) 1 = true /\
  Z.testbit (SUN8I_H3_THS_TEMP_SENSE_EN0 sunxi_header) 1 = false /\
  (exists evs, sun8i_h3_ths_resume sunxi_header w = Done 0 w' evs) /\
  Z.testbit (default 0 (regs w' !! SUN8I_H3_THS_CTRL2 sunxi_header)) 1 = false.
Proof.
  intros w w'. split; [vm_compute; reflexivity|].
  split; [vm_compute; reflexivity|].
  split; [eexists; vm_compute; reflexivity|].
  vm_compute. reflexivity.
Qed.

(** C3 against the driver.  On the A10 device a voltage read of channel 0 is
    followed by two temperature reads, each completed by its interrupt.
    The first temperature read changes the mode and makes no delay at all;
    the second, in the mode and on the channel of the first, makes the
    100 ms delay. *)
Theorem mode_switch_settle_misplaced :
  let w0 := set_irq_raised true a10_device in
  let volt := sun4i_gpadc_adc_read sunxi_header 0 0 w0 in
  let w1 := set_irq_raised true (world_of w0 volt) in
  let temp1 := sun4i_gpadc_temp_read sunxi_header 0 0 w1 in
  let w2 := set_irq_raised true (world_of w1 temp1) in
  let temp2 := sun4i_gpadc_temp_read sunxi_header 0 0 w2 in
  volt = Done (0, 1234) (world_of w0 volt) (events_of volt) /\
  mdelays (events_of volt) = [100] /\
  temp1 = Done (0, 77) (world_of w1 temp1) (events_of temp1) /\
  mdelays (events_of temp1) = [] /\
  temp2 = Done (0, 77) (world_of w2 temp2) (events_of temp2) /\
  mdelays (events_of temp2) = [100].
Proof. vm_compute. repeat split; reflexivity. Qed.

(** * Further properties of the driver *)

(** Runs driver code on a world given by its fields, splitting on the
    tests that stay open. *)
Ltac run_driver :=
  lazy beta iota zeta delta
    [sun4i_gpadc_read_raw sun4i_gpadc_adc_read sun4i_gpadc_temp_read
     sun4i_gpadc_temp_offset sun4i_gpadc_temp_scale sun4i_gpadc_get_temp
     sun4i_gpadc_read sun4i_gpadc_read_err
     mutex_lock mutex_unlock enable_irq disable_irq
     pm_runtime_mark_last_busy pm_runtime_put_autosuspend
     sun4i_gpadc_runtime_suspend sun4i_ths_suspend sun8i_h3_ths_suspend
     sun4i_gpadc_runtime_resume sun4i_ths_resume sun8i_h3_ths_resume
     sun8i_h3_calibrate oops chan_type channel
     sun4i_prepare_for_irq pm_runtime_get_sync reinit_completion
     sun4i_gpadc_irq_init call_adc_chan_select mdelay
     uninit regmap_write regmap_read regmap_read_int next_fault skip
     info_data mbind M_bind gets modify emit mret M_ret
     set_regs set_faults set_pm_usage set_completion set_irq_data_type
     set_mutex_held set_irq_depth set_irq_raised set_adc_data set_temp_data
     completion temp_data adc_data irq_data_type data calibration_data regs
     faults irq_depth irq_raised mutex_held pm_usage stack_junk
     wait_for_completion_timeout run_irq_thread complete
     sun4i_gpadc_data_irq_handler
     hd tl negb andb Nat.eqb Nat.pred app events_of world_of
     read_entry read_armed read_exit];
  change (0 =? 0) with true.

Ltac crunch :=
  repeat first
    [ progress run_driver
    | match goal with
      | H : adc_chan_select ?d = _ |- context [adc_chan_select ?d] => rewrite H
      | H : ths_irq_thread ?d = _ |- context [ths_irq_thread ?d] => rewrite H
      | |- context [if ?a =? ?b then _ else _] => destruct (a =? b)
      | |- context [if support_irq ?d then _ else _] => destruct (support_irq d)
      end ].

(** ** A preparation whose register accesses succeed *)

Section Prepared.

Context (hw : gpadc_header).

Lemma prepare_ok w d channel irq v :
  data w = Some d -> faults w = [] ->
  mode_select hw d channel irq = Some v ->
  exists evs,
    sun4i_prepare_for_irq hw channel irq w
    = Done 0
        (set_regs (prepared_regs hw d v (regs w))
           (set_completion 0%nat (set_pm_usage (pm_usage w + 1) w)))
        evs.
Proof.
  intros Hd Hf Hv. destruct w. simpl in Hd, Hf. subst.
  unfold mode_select, prepared_regs in *.
  repeat run_driver.
  destruct (irq =? SUN4I_GPADC_IRQ_FIFO_DATA hw).
  - destruct (adc_chan_select d) as [f|] eqn:Hsel; [|discriminate].
    injection Hv as <-. destruct f; crunch; eexists; reflexivity.
  - injection Hv as <-. crunch; eexists; reflexivity.
Qed.

(** The wait of a request for which the device raises its interrupt: the
    handler stores the content of the data register and posts the signal
    the wait takes. *)
Lemma wait_delivers w d ms :
  data w = Some d ->
  ths_irq_thread d = Some sun4i_gpadc_data_irq_handler_fn ->
  faults w = [] -> irq_raised w = true -> irq_depth w = 0%nat ->
  completion w = 0%nat ->
  exists w2,
    wait_for_completion_timeout hw ms w
    = Done 1 w2 [EvRegRead (irq_data_reg hw w) 0; EvComplete;
                 EvWaitForCompletion ms 1] /\
    completion w2 = 0%nat /\ irq_raised w2 = false /\
    irq_depth w2 = 0%nat /\ pm_usage w2 = pm_usage w /\
    regs w2 = regs w /\ data w2 = data w /\ faults w2 = [] /\
    (if irq_data_type w =? SUN4I_GPADC_IRQ_FIFO_DATA hw
     then adc_data w2 = u32 (default 0 (regs w !! SUN4I_GPADC_DATA hw))
     else temp_data w2
          = int32 (u32 (default 0 (regs w !! SUN4I_GPADC_TEMP_DATA hw)))).
Proof.
  intros Hd Hh Hf Hr Hdep Hc. destruct w. simpl in Hd, Hf, Hr, Hdep, Hc. subst.
  unfold irq_data_reg. simpl irq_data_type.
  repeat run_driver. rewrite Hh. repeat run_driver.
  destruct (irq_data_type0 =? SUN4I_GPADC_IRQ_FIFO_DATA hw);
    repeat run_driver; eexists; (split; [reflexivity|]); simpl; auto 10.
Qed.

Lemma prepared_regs_other d v m r :
  r <> SUN4I_GPADC_INT_FIFOC hw -> r <> SUN4I_GPADC_CTRL1 hw ->
  prepared_regs hw d v m !! r = m !! r.
Proof.
  intros H1 H2. unfold prepared_regs.
  destruct (support_irq d); now rewrite !lookup_insert_ne by done.
Qed.

(** A request that the device answers, from the call to the wait's end:
    [w2] is the world the exit of the request starts from. *)
Lemma read_answered w d channel val irq v :
  data w = Some d ->
  ths_irq_thread d = Some sun4i_gpadc_data_irq_handler_fn ->
  mode_select hw d channel irq = Some v ->
  faults w = [] -> irq_raised w = true -> irq_depth w = 1%nat ->
  let reg := if irq =? SUN4I_GPADC_IRQ_FIFO_DATA hw
             then SUN4I_GPADC_DATA hw else SUN4I_GPADC_TEMP_DATA hw in
  reg <> SUN4I_GPADC_INT_FIFOC hw -> reg <> SUN4I_GPADC_CTRL1 hw ->
  exists w2 evs,
    sun4i_gpadc_read hw channel val irq w
    = Done (0, int32 (u32 (default 0 (regs w !! reg)))) (read_exit w2) evs /\
    completion w2 = 0%nat /\ irq_raised w2 = false /\
    irq_depth w2 = 0%nat /\ pm_usage w2 = pm_usage w + 1.
Proof.
  intros Hd Hh Hv Hf Hr Hdep reg Hr1 Hr2.
  destruct (prepare_ok (read_entry irq w) d channel irq v Hd Hf Hv)
    as [e1 Hp].
  match type of Hp with _ = Done 0 ?x _ => set (w1 := x) in * end.
  destruct (wait_delivers (read_armed w1) d 1000) as
    (w2 & Hw & Hc2 & Hr2' & Hd2 & Hpm2 & Hregs2 & _ & _ & Hval); auto.
  { simpl. now rewrite Hdep. }
  pose proof (read_completed hw channel val irq w _ _ _ _ _ Hp Hw) as Hrun.
  rewrite Hrun by discriminate.
  exists w2. eexists. split; [|auto].
  f_equal. f_equal. simpl in Hval. subst reg.
  destruct (irq =? SUN4I_GPADC_IRQ_FIFO_DATA hw);
    rewrite Hval; simpl; now rewrite prepared_regs_other.
Qed.

(** X1.  A request on a probed device whose register accesses succeed and
    for which the device raises its interrupt returns 0 and hands over the
    content of the data register of its kind (the FIFO data register for a
    voltage request, the temperature data register otherwise), whatever
    the completion held before the call.  It leaves no signal behind, the
    interrupt consumed and disabled again, the lock free and the power
    claim given back. *)
Theorem read_delivers_sample w d channel val irq v :
  data w = Some d ->
  ths_irq_thread d = Some sun4i_gpadc_data_irq_handler_fn ->
  mode_select hw d channel irq = Some v ->
  faults w = [] -> irq_raised w = true -> irq_depth w = 1%nat ->
  let reg := if irq =? SUN4I_GPADC_IRQ_FIFO_DATA hw
             then SUN4I_GPADC_DATA hw else SUN4I_GPADC_TEMP_DATA hw in
  reg <> SUN4I_GPADC_INT_FIFOC hw -> reg <> SUN4I_GPADC_CTRL1 hw ->
  exists w' evs,
    sun4i_gpadc_read hw channel val irq w
    = Done (0, int32 (u32 (default 0 (regs w !! reg)))) w' evs /\
    completion w' = 0%nat /\ irq_raised w' = false /\
    irq_depth w' = 1%nat /\ mutex_held w' = false /\
    pm_usage w' = pm_usage w.
Proof.
  intros Hd Hh Hv Hf Hr Hdep reg Hr1 Hr2.
  destruct (read_answered w d channel val irq v Hd Hh Hv Hf Hr Hdep Hr1 Hr2)
    as (w2 & evs & Hrun & Hc2 & Hr2' & Hd2 & Hpm2).
  exists (read_exit w2), evs. split; [exact Hrun|].
  simpl. rewrite Hc2, Hr2', Hd2, Hpm2. repeat split; auto. lia.
Qed.

(** X20.  The raw read of a channel, through the IIO entry point, on a
    variant with ADC channels whose register accesses succeed and for
    which the device raises its interrupt: it returns [IIO_VAL_INT] with
    the content of the FIFO data register for a voltage channel and of the
    temperature data register for any other channel in [*val], leaves
    [*val2] alone, and gives back the lock and the power claim. *)
Theorem read_raw_delivers w d chan val val2 v :
  data w = Some d ->
  ths_irq_thread d = Some sun4i_gpadc_data_irq_handler_fn ->
  adc_channel d = true ->
  let voltage := match chan_type chan with IIO_VOLTAGE => true | _ => false end in
  let irq := if voltage then SUN4I_GPADC_IRQ_FIFO_DATA hw
             else SUN4I_GPADC_IRQ_TEMP_DATA hw in
  let reg := if voltage then SUN4I_GPADC_DATA hw
             else SUN4I_GPADC_TEMP_DATA hw in
  mode_select hw d (if voltage then channel chan else 0) irq = Some v ->
  faults w = [] -> irq_raised w = true -> irq_depth w = 1%nat ->
  SUN4I_GPADC_IRQ_TEMP_DATA hw <> SUN4I_GPADC_IRQ_FIFO_DATA hw ->
  reg <> SUN4I_GPADC_INT_FIFOC hw -> reg <> SUN4I_GPADC_CTRL1 hw ->
  exists w' evs,
    sun4i_gpadc_read_raw hw chan val val2 IIO_CHAN_INFO_RAW w
    = Done (IIO_VAL_INT hw, int32 (u32 (default 0 (regs w !! reg))), val2)
        w' evs /\
    mutex_held w' = false /\ pm_usage w' = pm_usage w /\
    irq_depth w' = 1%nat.
Proof.
  intros Hd Hh Hadc voltage irq reg Hv Hf Hr Hdep Hirq Hr1 Hr2.
  assert ((if irq =? SUN4I_GPADC_IRQ_FIFO_DATA hw
           then SUN4I_GPADC_DATA hw else SUN4I_GPADC_TEMP_DATA hw) = reg)
    as Hreg.
  { subst irq reg. destruct voltage; [now rewrite Z.eqb_refl|].
    apply Z.eqb_neq in Hirq. now rewrite Hirq. }
  destruct (read_answered w d _ val irq v Hd Hh Hv Hf Hr Hdep)
    as (w2 & evs & Hrun & _ & _ & Hd2 & Hpm2);
    [now rewrite Hreg..|].
  rewrite Hreg in Hrun.
  assert (sun4i_gpadc_read_raw hw chan val val2 IIO_CHAN_INFO_RAW w
          = Done (IIO_VAL_INT hw, int32 (u32 (default 0 (regs w !! reg))), val2)
              (read_exit w2) evs) as Hraw.
  { assert (sun4i_gpadc_temp_read hw val 0 w
            = sun4i_gpadc_read hw 0 val (SUN4I_GPADC_IRQ_TEMP_DATA hw) w)
      as Htemp.
    { unfold sun4i_gpadc_temp_read.
      now rewrite (info_data_bind _ _ w d Hd), Hadc. }
    unfold sun4i_gpadc_read_raw, sun4i_gpadc_adc_read.
    subst voltage irq. destruct (chan_type chan).
    - rewrite (bind_run _ _ _ _ _ _ Hrun). simpl. now rewrite app_nil_r.
    - rewrite <- Htemp in Hrun. rewrite (bind_run _ _ _ _ _ _ Hrun). simpl.
      now rewrite app_nil_r.
    - rewrite <- Htemp in Hrun. rewrite (bind_run _ _ _ _ _ _ Hrun). simpl.
      now rewrite app_nil_r. }
  exists (read_exit w2), evs. split; [exact Hraw|].
  simpl. rewrite Hd2, Hpm2. repeat split; auto. lia.
Qed.

End Prepared.

(** ** The bracket of a request *)

Section Bracket.

Context (hw : gpadc_header).

(** The calls of the bracket of a request: the lock, the unlock, the
    disabling of the interrupt and the release of the power claim. *)
Lemma inner_not_bracket (l : list event) :
  Forall inner_event l ->
  (EvMutexLock ∉ l) /\ (EvMutexUnlock ∉ l) /\ (EvDisableIrq ∉ l) /\
  (EvPmPutAutosuspend ∉ l) /\ (EvEnableIrq ∉ l).
Proof. intros H. repeat split; apply inner_not_elem; auto. Qed.

(** X2.  Whatever way a call of [sun4i_gpadc_read] returns (failed
    preparation, timeout or completed wait), it has taken the lock first
    and ends with the release of the power claim, the disabling of the
    interrupt and the unlock, each of them made exactly once; it enables
    the interrupt at most once, only after the preparation.  At the return
    the lock is free, the power claim is balanced, the bound variant is
    the same, and the disable depth of the interrupt is at least 1 and not
    below the depth at the call. *)
Theorem read_bracket channel val irq w res w' evs :
  sun4i_gpadc_read hw channel val irq w = Done res w' evs ->
  (exists pre post,
      evs = EvMutexLock :: pre ++ post
            ++ [EvPmPutAutosuspend; EvDisableIrq; EvMutexUnlock] /\
      Forall inner_event pre /\
      (post = [] \/
       exists waited, post = EvEnableIrq :: waited /\
         Forall (fun e => inner_event e \/
                          exists t, e = EvWaitForCompletion 1000 t) waited)) /\
  mutex_held w' = false /\
  pm_usage w' = pm_usage w /\
  data w' = data w /\
  (1 <= irq_depth w')%nat /\ (irq_depth w <= irq_depth w')%nat.
Proof.
  intros H.
  destruct (read_exit_common _ _ _ _ _ _ _ _ H) as (_ & Hm & Hpm).
  assert (data w' = data w) as Hdata by (eapply preserves_data_read, H).
  apply read_inv in H.
  destruct H as [r w1 e1 Hp Hr|w1 e1 w2 e2 Hp Hw|w1 e1 t w2 e2 Hp Hw Ht].
  - pose proof (inner_prepare hw channel irq (read_entry irq w)) as Hi.
    rewrite Hp in Hi. simpl in Hi.
    split; [|repeat split; auto; simpl].
    + exists e1, []. now auto.
    + lia.
    + rewrite (prepare_frame hw irq_depth _ _ (fun _ _ => eq_refl) _ _ _ _ Hp).
      simpl. lia.
  - pose proof (inner_prepare hw channel irq (read_entry irq w)) as Hi.
    rewrite Hp in Hi. simpl in Hi.
    destruct (wait_inv _ _ _ _ _ _ Hw) as (e & -> & He).
    split; [|repeat split; auto; simpl].
    + exists e1, (EvEnableIrq :: e ++ [EvWaitForCompletion 1000 0]).
      split; [|split; [exact Hi|right]].
      * unfold exit_calls. simpl. now rewrite <- ?app_assoc.
      * eexists. split; [reflexivity|]. apply Forall_app. split.
        -- eapply Forall_impl; [exact He|]. auto.
        -- constructor; [right; eauto|constructor].
    + lia.
    + rewrite (preserves_wait hw irq_depth _ _ _ _ _ Hw). simpl.
      rewrite (prepare_frame hw irq_depth _ _ (fun _ _ => eq_refl) _ _ _ _ Hp).
      simpl. lia.
  - pose proof (inner_prepare hw channel irq (read_entry irq w)) as Hi.
    rewrite Hp in Hi. simpl in Hi.
    destruct (wait_inv _ _ _ _ _ _ Hw) as (e & -> & He).
    split; [|repeat split; auto; simpl].
    + exists e1, (EvEnableIrq :: e ++ [EvWaitForCompletion 1000 t; EvPmMarkLastBusy]).
      split; [|split; [exact Hi|right]].
      * unfold exit_calls. simpl. now rewrite <- ?app_assoc.
      * eexists. split; [reflexivity|]. apply Forall_app. split.
        -- eapply Forall_impl; [exact He|]. auto.
        -- constructor; [right; eauto|].
           constructor; [left; exact I|constructor].
    + lia.
    + rewrite (preserves_wait hw irq_depth _ _ _ _ _ Hw). simpl.
      rewrite (prepare_frame hw irq_depth _ _ (fun _ _ => eq_refl) _ _ _ _ Hp).
      simpl. lia.
Qed.

End Bracket.

(** ** A request while the interrupt stays masked *)

Section Masked.

Context (hw : gpadc_header).

Lemma preserves_completion_next_fault : preserves completion next_fault.
Proof. intros w a w' evs [= _ <- _]. reflexivity. Qed.

Hint Resolve preserves_completion_next_fault : driver.

(** Once the completion is reinitialised, the preparation posts nothing. *)
Lemma prepare_completion channel irq w r w' evs :
  sun4i_prepare_for_irq hw channel irq w = Done r w' evs ->
  completion w' = 0%nat.
Proof.
  unfold sun4i_prepare_for_irq. intros H.
  apply bind_done in H as (? & w1 & ? & ? & _ & H2 & _).
  apply bind_done in H2 as (? & w2 & ? & ? & H2 & H3 & _).
  assert (completion w2 = 0%nat) as <-.
  { unfold reinit_completion in H2.
    apply bind_done in H2 as (? & w0 & ? & ? & [= _ <- _] & [= _ <- _] & _).
    reflexivity. }
  cbv beta in H3.
  match type of H3 with
  | ?m w2 = _ => assert (preserves completion m) as Hrest
  end.
  { unfold uninit, skip, sun4i_gpadc_irq_init, call_adc_chan_select, mdelay,
      regmap_write, regmap_read.
    walk. }
  apply (Hrest _ _ _ _ H3).
Qed.

(** With the line disabled and no signal posted, the wait runs to the
    deadline, whatever the device raises. *)
Lemma wait_masked ms w :
  irq_depth w <> 0%nat -> completion w = 0%nat ->
  wait_for_completion_timeout hw ms w
  = Done 0 w [EvWaitForCompletion ms 0].
Proof.
  intros Hdep Hc. apply Nat.eqb_neq in Hdep.
  assert (run_irq_thread hw w = Done tt w []) as Hirq.
  { unfold run_irq_thread. rewrite !gets_bind, Hdep, andb_false_r.
    reflexivity. }
  unfold wait_for_completion_timeout.
  rewrite (bind_run _ _ _ _ _ _ Hirq), gets_bind, Hc, ret_bind.
  reflexivity.
Qed.

(** X3.  When the disable depth of the interrupt is 2 or more at the call
    (as it is after one failed preparation on a probed device), a request
    whose preparation succeeds always ends in the timeout: its single
    [enable_irq] does not bring the line back to life, so the handler
    never runs whatever the device raises, [-ETIMEDOUT] is returned with
    [*val] untouched, and the depth is the same after the call. *)
Theorem read_with_unbalanced_depth channel val irq w w1 e1 :
  (2 <= irq_depth w)%nat ->
  sun4i_prepare_for_irq hw channel irq (read_entry irq w) = Done 0 w1 e1 ->
  exists w',
    sun4i_gpadc_read hw channel val irq w
    = Done (- (ETIMEDOUT hw), val) w'
        (EvMutexLock :: e1 ++ [EvEnableIrq; EvWaitForCompletion 1000 0;
                               EvPmPutAutosuspend; EvDisableIrq;
                               EvMutexUnlock]) /\
    irq_depth w' = irq_depth w /\
    irq_raised w' = irq_raised w.
Proof.
  intros Hdep Hp.
  assert (irq_depth w1 = irq_depth w) as Hd1
    by apply (prepare_frame hw irq_depth _ _ (fun _ _ => eq_refl) _ _ _ _ Hp).
  assert (irq_raised w1 = irq_raised w) as Hr1.
  { assert (preserves irq_raised (sun4i_prepare_for_irq hw channel irq)) as Hpr.
    { unfold sun4i_prepare_for_irq, pm_runtime_get_sync, reinit_completion,
        uninit, skip, sun4i_gpadc_irq_init, call_adc_chan_select, mdelay,
        regmap_write, regmap_read, next_fault.
      walk; try (intros ? ? ? ? [= _ <- _]; reflexivity). }
    apply (Hpr _ _ _ _ Hp). }
  assert (wait_for_completion_timeout hw 1000 (read_armed w1)
          = Done 0 (read_armed w1) [EvWaitForCompletion 1000 0]) as Hw.
  { apply wait_masked.
    - simpl. rewrite Hd1. lia.
    - simpl. apply (prepare_completion _ _ _ _ _ _ Hp). }
  exists (read_exit (read_armed w1)).
  rewrite (read_timed_out hw channel val irq w _ _ _ _ Hp Hw).
  split; [reflexivity|]. simpl. rewrite Hd1, Hr1. split; [lia|reflexivity].
Qed.

End Masked.

(** ** Reads on the variants without ADC channels *)

Section Variants.

Context (hw : gpadc_header).

(** X4.  On a variant whose table leaves [adc_chan_select] out (sun8i-a33,
    sun8i-h3), the raw read of a voltage channel never returns when the
    first two register accesses succeed: holding the lock and the power
    claim, after the write of the FIFO control register and the read of
    the control register, the driver calls through the NULL pointer. *)
Theorem voltage_read_without_chan_select w d chan val val2 :
  data w = Some d ->
  adc_chan_select d = None ->
  chan_type chan = IIO_VOLTAGE ->
  hd 0 (faults w) = 0 -> hd 0 (tl (faults w)) = 0 ->
  sun4i_gpadc_read_raw hw chan val val2 IIO_CHAN_INFO_RAW w
  = Oops [EvMutexLock; EvPmGetSync; EvReinitCompletion;
          EvRegWrite (SUN4I_GPADC_INT_FIFOC hw)
            (u32 (Z.lor (SUN4I_GPADC_INT_FIFOC_TP_FIFO_TRIG_LEVEL hw 1)
                        (SUN4I_GPADC_INT_FIFOC_TP_FIFO_FLUSH hw))) 0;
          EvRegRead (SUN4I_GPADC_CTRL1 hw) 0].
Proof.
  intros Hd Hsel Hty Hf1 Hf2. destruct w. simpl in Hd, Hf1, Hf2. subst.
  destruct chan as [ty ch name]. simpl in Hty. subst ty.
  destruct faults0 as [|f1 [|f2 l]]; simpl in Hf1, Hf2; subst;
    repeat run_driver; rewrite Z.eqb_refl; repeat run_driver;
    rewrite Hsel; reflexivity.
Qed.

(** X5.  On a variant without ADC channels the temperature read goes
    straight to the data register of the sensor, at the base of the
    variant plus 4 times the sensor index: it takes and gives back the
    power claim, touches neither the lock nor the interrupt nor the
    completion, and returns 0 whether or not the register read succeeds.
    On a failed read it hands back the content [*val] had at the call. *)
Theorem temp_read_direct w d val sensor :
  data w = Some d ->
  adc_channel d = false ->
  let reg := u32 (temp_data_base d + 4 * sensor) in
  let ret := hd 0 (faults w) in
  exists w',
    sun4i_gpadc_temp_read hw val sensor w
    = Done (0, if ret =? 0 then int32 (u32 (default 0 (regs w !! reg)))
               else val)
        w'
        [EvPmGetSync; EvRegRead reg ret; EvPmMarkLastBusy;
         EvPmPutAutosuspend] /\
    pm_usage w' = pm_usage w /\ mutex_held w' = mutex_held w /\
    irq_depth w' = irq_depth w /\ completion w' = completion w.
Proof.
  intros Hd Hadc reg ret. subst reg ret. destruct w. simpl in Hd. subst.
  destruct faults0 as [|f l]; simpl hd;
    repeat run_driver; rewrite Hadc; repeat run_driver;
    [|destruct (f =? 0)]; repeat run_driver;
    eexists; (split; [reflexivity|]); simpl; repeat split; lia.
Qed.

(** X6.  The thermal callback reports every failure of the temperature
    read as [-ETIMEDOUT], whatever the error was, and then leaves [*temp]
    as it found it. *)
Theorem get_temp_error w sensor temp r v w1 e1 :
  sun4i_gpadc_temp_read hw (stack_junk w) sensor w = Done (r, v) w1 e1 ->
  r <> 0 ->
  sun4i_gpadc_get_temp hw sensor temp w
  = Done (- (ETIMEDOUT hw), temp) w1 e1.
Proof.
  intros Hrun Hr. apply Z.eqb_neq in Hr.
  unfold sun4i_gpadc_get_temp, uninit. rewrite !gets_bind.
  rewrite (bind_run _ _ _ _ _ _ Hrun). simpl. rewrite Hr. simpl.
  now rewrite app_nil_r.
Qed.

(** X7.  On a variant without ADC channels the thermal callback never
    reports an error: when the register read fails it returns 0 all the
    same, and the temperature it reports is the linear transform of the
    uninitialised local the read was to fill. *)
Theorem get_temp_direct_read_failure w d sensor temp :
  data w = Some d ->
  adc_channel d = false ->
  hd 0 (faults w) <> 0 ->
  exists w' evs,
    sun4i_gpadc_get_temp hw sensor temp w
    = Done (0, int32 (int32 (stack_junk w + temp_offset d) * temp_scale d))
        w' evs.
Proof.
  intros Hd Hadc Hf. apply Z.eqb_neq in Hf.
  destruct w. simpl in Hd, Hf. subst.
  destruct faults0 as [|f l]; simpl in Hf; [discriminate|].
  repeat run_driver. rewrite Hadc. repeat run_driver. rewrite Hf.
  repeat run_driver. eexists _, _. reflexivity.
Qed.

End Variants.

(** ** The periodic interrupt of the H3 *)

Section Periodic.

Context (hw : gpadc_header).

Lemma mapM_emit_run (f : nat -> event) (l : list nat) w :
  mapM (fun i => emit (f i)) l w = Done (map (fun _ => tt) l) w (map f l).
Proof.
  induction l as [|i l IH]; [reflexivity|]. simpl.
  rewrite (bind_run (emit (f i)) _ w tt w [f i] eq_refl).
  rewrite (bind_run _ _ _ _ _ _ IH). unfold mret, M_ret. simpl.
  now rewrite app_nil_r.
Qed.

Lemma regmap_write_slots reg val w r w1 e1 :
  regmap_write reg val w = Done r w1 e1 ->
  completion w1 = completion w /\
  adc_data w1 = adc_data w /\ temp_data w1 = temp_data w.
Proof.
  unfold regmap_write, next_fault, skip, mbind, M_bind, modify, emit, mret,
    M_ret.
  destruct (hd 0 (faults w) =? 0); intros [= _ <- _]; auto.
Qed.

(** X8.  The handler of the periodic interrupt writes the clear mask of
    the variant to the status register, then notifies the thermal zone of
    each sensor once, in index order, and returns [IRQ_HANDLED]; it does
    so whether or not the write succeeds.  It posts no completion and
    leaves the value slots alone. *)
Theorem h3_irq_thread_notifies w d :
  data w = Some d ->
  exists w',
    sunx8i_h3_irq_thread hw w
    = Done (IRQ_HANDLED hw) w'
        (EvRegWrite (SUN8I_H3_THS_STAT hw) (u32 (ths_irq_clear d))
           (hd 0 (faults w))
         :: map (fun i => EvThermalZoneUpdate (Z.of_nat i))
              (seq 0 (Z.to_nat (sensor_count d)))) /\
    completion w' = completion w /\
    adc_data w' = adc_data w /\ temp_data w' = temp_data w.
Proof.
  intros Hd. unfold sunx8i_h3_irq_thread.
  rewrite (info_data_bind _ _ w d Hd).
  destruct (regmap_write (SUN8I_H3_THS_STAT hw) (ths_irq_clear d) w)
    as [r w1 e1|e1] eqn:Hw.
  2: { exfalso. revert Hw. unfold regmap_write, next_fault, skip, mbind,
         M_bind, modify, emit, mret, M_ret.
       destruct (hd 0 (faults w) =? 0); discriminate. }
  assert (e1 = [EvRegWrite (SUN8I_H3_THS_STAT hw) (u32 (ths_irq_clear d))
                  (hd 0 (faults w))]) as ->.
  { pose proof (events_of_regmap_write (SUN8I_H3_THS_STAT hw)
                  (ths_irq_clear d) w) as He. now rewrite Hw in He. }
  assert (data w1 = Some d) as Hd1.
  { rewrite <- Hd. eapply (preserves_regmap_write data), Hw. }
  exists w1. rewrite (bind_run _ _ _ _ _ _ Hw).
  rewrite (info_data_bind _ _ w1 d Hd1).
  rewrite (bind_run _ _ _ _ _ _ (mapM_emit_run _ _ w1)).
  unfold mret, M_ret. simpl. rewrite ?app_nil_r.
  split; [reflexivity|]. apply (regmap_write_slots _ _ _ _ _ _ Hw).
Qed.

End Periodic.

(** ** Runtime suspend and resume *)

Section PowerCycle.

Context (hw : gpadc_header).

Lemma returns_regmap_write d reg val :
  returns (fun w => data w = Some d) (fun _ => True) (regmap_write reg val).
Proof.
  intros w Hw. unfold regmap_write, next_fault, skip, mbind, M_bind, modify,
    emit, mret, M_ret.
  destruct (hd 0 (faults w) =? 0); eexists _, _, _; simpl; eauto.
Qed.

Lemma returns_regmap_read d reg old :
  returns (fun w => data w = Some d) (fun _ => True) (regmap_read reg old).
Proof. intros w Hw. eexists _, _, _. split; [reflexivity|]. simpl. auto. Qed.

Lemma returns_uninit d :
  returns (fun w => data w = Some d) (fun _ => True) uninit.
Proof. intros w Hw. eexists _, _, _. split; [reflexivity|]. auto. Qed.

Hint Resolve returns_regmap_write returns_regmap_read returns_uninit : driver.

(** X9.  The runtime-PM callbacks swallow every register error: on a
    variant of the match table, suspend and resume return 0 whatever the
    register port answers to their accesses. *)
Theorem runtime_pm_returns_zero w d :
  data w = Some d ->
  d ∈ (sun4i_gpadc_of_id hw).*2 ->
  (exists w' evs, sun4i_gpadc_runtime_suspend hw w = Done 0 w' evs) /\
  (exists w' evs, sun4i_gpadc_runtime_resume hw w = Done 0 w' evs).
Proof.
  intros Hd Hin.
  assert (returns (fun w => data w = Some d) (fun r => r = 0)
            (sun4i_gpadc_runtime_suspend hw) /\
          returns (fun w => data w = Some d) (fun r => r = 0)
            (sun4i_gpadc_runtime_resume hw)) as [Hs Hr].
  { assert (returns (fun w => data w = Some d) (fun r => r = 0)
              (sun4i_ths_suspend hw)) as H1.
    { unfold sun4i_ths_suspend. repeat step_returns; eauto with driver. }
    assert (returns (fun w => data w = Some d) (fun r => r = 0)
              (sun8i_h3_ths_suspend hw)) as H2.
    { unfold sun8i_h3_ths_suspend. repeat step_returns; eauto with driver. }
    assert (returns (fun w => data w = Some d) (fun r => r = 0)
              (sun4i_ths_resume hw)) as H3.
    { unfold sun4i_ths_resume. repeat step_returns; eauto with driver. }
    assert (returns (fun w => data w = Some d) (fun r => r = 0)
              (sun8i_h3_ths_resume hw)) as H4.
    { unfold sun8i_h3_ths_resume, sun8i_h3_calibrate.
      repeat first
        [ step_returns
        | match goal with
          | |- returns _ _ (match ?x with _ => _ end) => destruct x
          end ];
        eauto with driver. }
    unfold sun4i_gpadc_of_id in Hin. simpl in Hin.
    rewrite !elem_of_cons, elem_of_nil in Hin.
    split; intros w0 Hw0.
    - unfold sun4i_gpadc_runtime_suspend.
      rewrite (info_data_bind _ _ w0 d Hw0).
      destruct Hin as [-> | [-> | [-> | [-> | [-> | [] ] ] ] ] ]; simpl; auto.
    - unfold sun4i_gpadc_runtime_resume.
      rewrite (info_data_bind _ _ w0 d Hw0).
      destruct Hin as [-> | [-> | [-> | [-> | [-> | [] ] ] ] ] ]; simpl; auto. }
  destruct (Hs w Hd) as (r & w' & evs & Hrun & _ & ->).
  destruct (Hr w Hd) as (r' & w'' & evs' & Hrun' & _ & ->).
  eauto 10.
Qed.

Lemma u32_0 : u32 0 = 0.
Proof. reflexivity. Qed.

(** X10.  With a register port that does not fail, the runtime suspend of
    a variant writes 0 to each register of its suspend sequence (control
    register 1, the temperature period register and the interrupt and
    FIFO control register on the GPADC; the interrupt control and control
    register 2 on the H3) and leaves every other register as it was. *)
Theorem runtime_suspend_clears w d f :
  data w = Some d ->
  ths_suspend d = Some f ->
  faults w = [] ->
  exists w' evs,
    sun4i_gpadc_runtime_suspend hw w = Done 0 w' evs /\
    forall r,
      regs w' !! r
      = if bool_decide (r ∈ suspend_regs hw f) then Some 0 else regs w !! r.
Proof.
  intros Hd Hs Hf. destruct w. simpl in Hd, Hf. subst.
  destruct f; repeat run_driver; rewrite Hs; repeat run_driver;
    (eexists _, _; split; [reflexivity|]); intros r; simpl;
    rewrite !u32_0, !lookup_insert;
    case_bool_decide as Hin; rewrite !elem_of_cons, elem_of_nil in Hin;
    repeat case_decide; try reflexivity; exfalso; intuition congruence.
Qed.

(** X11.  On a GPADC variant, with a register port that does not fail, a
    runtime suspend followed by a runtime resume leaves the register file
    as the resume alone leaves it from the same registers with the
    interrupt and FIFO control register cleared: everything the suspend
    turned off is set up again, except that the interrupt enables stay
    masked until the next request writes them. *)
Theorem suspend_resume_gpadc w d :
  data w = Some d ->
  ths_suspend d = Some sun4i_ths_suspend_fn ->
  ths_resume d = Some sun4i_ths_resume_fn ->
  faults w = [] ->
  exists ws es wr er wr' er',
    sun4i_gpadc_runtime_suspend hw w = Done 0 ws es /\
    sun4i_gpadc_runtime_resume hw ws = Done 0 wr er /\
    sun4i_gpadc_runtime_resume hw
      (set_regs (<[SUN4I_GPADC_INT_FIFOC hw := 0]> (regs w)) w)
    = Done 0 wr' er' /\
    regs wr = regs wr'.
Proof.
  intros Hd Hs Hr Hf. destruct w. simpl in Hd, Hf. subst.
  eexists _, _, _, _, _, _.
  split; [repeat run_driver; rewrite Hs; repeat run_driver; reflexivity|].
  split; [repeat run_driver; rewrite Hr; repeat run_driver; reflexivity|].
  split; [repeat run_driver; rewrite Hr; repeat run_driver; reflexivity|].
  repeat run_driver. rewrite !u32_0.
  apply map_eq. intros i. rewrite !lookup_insert. repeat case_decide; done.
Qed.

(** X12.  On the H3, with a register port that does not fail, a runtime
    suspend followed by a runtime resume leaves the register file exactly
    as the resume alone leaves it: the resume rewrites every register the
    suspend cleared. *)
Theorem suspend_resume_h3 w d :
  data w = Some d ->
  ths_suspend d = Some sun8i_h3_ths_suspend_fn ->
  ths_resume d = Some sun8i_h3_ths_resume_fn ->
  faults w = [] ->
  exists ws es wr er wr' er',
    sun4i_gpadc_runtime_suspend hw w = Done 0 ws es /\
    sun4i_gpadc_runtime_resume hw ws = Done 0 wr er /\
    sun4i_gpadc_runtime_resume hw w = Done 0 wr' er' /\
    regs wr = regs wr'.
Proof.
  intros Hd Hs Hr Hf. destruct w. simpl in Hd, Hf. subst.
  eexists _, _, _, _, _, _.
  split; [repeat run_driver; rewrite Hs; repeat run_driver; reflexivity|].
  split; [repeat run_driver; rewrite Hr; repeat run_driver; reflexivity|].
  split; [repeat run_driver; rewrite Hr; repeat run_driver; reflexivity|].
  repeat run_driver. rewrite !u32_0.
  rewrite (insert5_lookup_indep _ regs0).
  apply map_eq. intros i. rewrite !lookup_insert. repeat case_decide; done.
Qed.

End PowerCycle.

(** ** The control register from one request to the next *)

Section Latched.

Context (hw : gpadc_header).

Lemma u32_land x y : Z.land (u32 x) y = u32 (Z.land x y).
Proof.
  unfold u32. rewrite <- !Z.land_ones by lia.
  rewrite <- !Z.land_assoc. f_equal. apply Z.land_comm.
Qed.

Lemma land_lor_select x y s : Z.land (Z.lor (Z.lor x s) y) s = s.
Proof.
  apply Z.bits_inj'. intros n _.
  rewrite Z.land_spec, !Z.lor_spec.
  destruct (Z.testbit x n), (Z.testbit s n), (Z.testbit y n); reflexivity.
Qed.

Lemma land_lor_channel x c m :
  Z.land x m = 0 -> Z.land c m = c -> Z.land (Z.lor x c) m = c.
Proof. intros Hx Hc. now rewrite Z.land_lor_distr_l, Hx, Hc. Qed.

Lemma chan_select_value_u32 f channel :
  u32 (chan_select_value hw f channel) = chan_select_value hw f channel.
Proof. destruct f; apply u32_idemp. Qed.

Lemma prepared_regs_ctrl1 d v m :
  SUN4I_GPADC_INT_FIFOC hw <> SUN4I_GPADC_CTRL1 hw ->
  prepared_regs hw d v m !! SUN4I_GPADC_CTRL1 hw = Some (u32 v).
Proof.
  intros Hne. unfold prepared_regs. destruct (support_irq d).
  - rewrite lookup_insert_ne by done. apply lookup_insert_eq.
  - apply lookup_insert_eq.
Qed.

(** What a preparation leaves for the next one to read back. *)
Lemma prepare_latches w d channel irq v :
  data w = Some d -> faults w = [] ->
  mode_select hw d channel irq = Some v ->
  SUN4I_GPADC_INT_FIFOC hw <> SUN4I_GPADC_CTRL1 hw ->
  exists w1 evs,
    sun4i_prepare_for_irq hw channel irq w = Done 0 w1 evs /\
    (regs w1 !! SUN4I_GPADC_CTRL1 hw) = Some (u32 v) /\
    faults w1 = [] /\ data w1 = Some d.
Proof.
  intros Hd Hf Hv Hne.
  destruct (prepare_ok hw w d channel irq v Hd Hf Hv) as [evs Hp].
  eexists _, evs. split; [exact Hp|]. simpl.
  split; [now apply prepared_regs_ctrl1|auto].
Qed.

(** X13.  A preparation whose register accesses succeed leaves the mode
    and channel of the request in the control register; in the interrupt
    and FIFO control register it leaves the temperature interrupt enable
    alone on a variant with interrupt support, for a voltage request too
    (the trigger level and flush written first are overwritten), and the
    trigger level and flush on the others.  It resets the completion and
    takes the power claim. *)
Theorem prepare_registers w d channel irq v :
  data w = Some d -> faults w = [] ->
  mode_select hw d channel irq = Some v ->
  SUN4I_GPADC_INT_FIFOC hw <> SUN4I_GPADC_CTRL1 hw ->
  exists w1 evs,
    sun4i_prepare_for_irq hw channel irq w = Done 0 w1 evs /\
    (regs w1 !! SUN4I_GPADC_CTRL1 hw) = Some (u32 v) /\
    (regs w1 !! SUN4I_GPADC_INT_FIFOC hw)
    = Some (if support_irq d
            then u32 (SUN4I_GPADC_INT_FIFOC_TEMP_IRQ_EN hw)
            else u32 (Z.lor (SUN4I_GPADC_INT_FIFOC_TP_FIFO_TRIG_LEVEL hw 1)
                            (SUN4I_GPADC_INT_FIFOC_TP_FIFO_FLUSH hw))) /\
    completion w1 = 0%nat /\ pm_usage w1 = pm_usage w + 1 /\
    faults w1 = [] /\ data w1 = Some d.
Proof.
  intros Hd Hf Hv Hne.
  destruct (prepare_ok hw w d channel irq v Hd Hf Hv) as [evs Hp].
  eexists _, evs. split; [exact Hp|]. simpl.
  split; [|split; [|auto]].
  - now apply prepared_regs_ctrl1.
  - unfold prepared_regs. destruct (support_irq d).
    + now rewrite lookup_insert_eq, u32_idemp.
    + rewrite lookup_insert_ne by congruence. apply lookup_insert_eq.
Qed.

(** X14.  Two voltage requests in a row, on registers laid out so that the
    mode bits lie outside the channel mask and the channel encoding inside
    it: the preparation of the second makes no 100 ms delay, and makes the
    10 ms delay exactly when its channel encoding differs from that of the
    first.  A repeat of the same channel makes no delay at all. *)
Theorem voltage_after_voltage w d f channel1 channel2 :
  data w = Some d -> faults w = [] ->
  adc_chan_select d = Some f ->
  SUN4I_GPADC_INT_FIFOC hw <> SUN4I_GPADC_CTRL1 hw ->
  u32 (tp_adc_select d) = tp_adc_select d ->
  Z.land (Z.lor (tp_mode_en d) (tp_adc_select d)) (adc_chan_mask d) = 0 ->
  Z.land (chan_select_value hw f channel1) (adc_chan_mask d)
  = chan_select_value hw f channel1 ->
  exists w1 e1,
    sun4i_prepare_for_irq hw channel1 (SUN4I_GPADC_IRQ_FIFO_DATA hw) w
    = Done 0 w1 e1 /\
    mdelays (events_of (sun4i_prepare_for_irq hw channel2
                          (SUN4I_GPADC_IRQ_FIFO_DATA hw) w1))
    = if chan_select_value hw f channel1 =? chan_select_value hw f channel2
      then [] else [10].
Proof.
  intros Hd Hf Hsel Hne Hu Hmode Hchan.
  set (v := Z.lor (Z.lor (tp_mode_en d) (tp_adc_select d))
                  (chan_select_value hw f channel1)).
  assert (mode_select hw d channel1 (SUN4I_GPADC_IRQ_FIFO_DATA hw) = Some v)
    as Hv by (unfold mode_select; now rewrite Z.eqb_refl, Hsel).
  destruct (prepare_latches w d channel1 _ v Hd Hf Hv Hne)
    as (w1 & e1 & Hp & Hc1 & Hf1 & Hd1).
  exists w1, e1. split; [exact Hp|].
  rewrite (prepare_voltage_delays hw w1 d f channel2 Hd1 Hf1 Hsel Hne).
  rewrite Hc1. simpl. rewrite u32_idemp, !u32_land. subst v.
  rewrite land_lor_select, Hu, Z.eqb_refl, app_nil_r.
  rewrite (land_lor_channel _ _ _ Hmode Hchan), chan_select_value_u32.
  destruct f; reflexivity.
Qed.

(** X15.  A voltage request right after a temperature request, on
    registers laid out so that the mode-enable bits lie outside the ADC
    select bit and the channel mask: its preparation always makes the
    100 ms delay of the mode switch, after the 10 ms delay when the
    channel encoding is not 0. *)
Theorem voltage_after_temperature w d f channel0 channel :
  data w = Some d -> faults w = [] ->
  adc_chan_select d = Some f ->
  SUN4I_GPADC_INT_FIFOC hw <> SUN4I_GPADC_CTRL1 hw ->
  SUN4I_GPADC_IRQ_TEMP_DATA hw <> SUN4I_GPADC_IRQ_FIFO_DATA hw ->
  tp_adc_select d <> 0 ->
  Z.land (tp_mode_en d) (tp_adc_select d) = 0 ->
  Z.land (tp_mode_en d) (adc_chan_mask d) = 0 ->
  exists w1 e1,
    sun4i_prepare_for_irq hw channel0 (SUN4I_GPADC_IRQ_TEMP_DATA hw) w
    = Done 0 w1 e1 /\
    mdelays (events_of (sun4i_prepare_for_irq hw channel
                          (SUN4I_GPADC_IRQ_FIFO_DATA hw) w1))
    = (if 0 =? chan_select_value hw f channel then [] else [10]) ++ [100].
Proof.
  intros Hd Hf Hsel Hne Hirq Hs Hmode Hmask.
  assert (mode_select hw d channel0 (SUN4I_GPADC_IRQ_TEMP_DATA hw)
          = Some (tp_mode_en d)) as Hv.
  { unfold mode_select. apply Z.eqb_neq in Hirq. now rewrite Hirq. }
  destruct (prepare_latches w d channel0 _ _ Hd Hf Hv Hne)
    as (w1 & e1 & Hp & Hc1 & Hf1 & Hd1).
  exists w1, e1. split; [exact Hp|].
  rewrite (prepare_voltage_delays hw w1 d f channel Hd1 Hf1 Hsel Hne).
  rewrite Hc1. simpl. rewrite u32_idemp, !u32_land, Hmode, Hmask, u32_0.
  apply Z.neq_sym, Z.eqb_neq in Hs. rewrite Hs.
  destruct f; reflexivity.
Qed.

End Latched.

(** ** The device-tree probe, further *)


Section ProbeMore.

Context (hw : gpadc_header) (pdev : platform_device).

(** X16.  The probe refuses early, before it asks for any resource, makes
    any kernel call or touches the interrupt: with [-ENODEV] when the
    device matches no variant, with the mapping error when the register
    window cannot be mapped, and with [-EPROBE_DEFER] when the variant
    supports the calibration store and the calibration cell is not there
    yet. *)
Theorem probe_dt_refuses w :
  (of_match_data pdev = None ->
   sun4i_gpadc_probe_dt hw pdev w
   = Done (- (ENODEV hw)) (set_data None w) []) /\
  (forall d,
      of_match_data pdev = Some d -> ioremap_err pdev <> 0 ->
      sun4i_gpadc_probe_dt hw pdev w
      = Done (ioremap_err pdev) (set_data (Some d) w) []) /\
  (forall d,
      of_match_data pdev = Some d -> ioremap_err pdev = 0 ->
      supports_nvmem d = true ->
      nvmem_calibration pdev = NvmemCellErr (- (EPROBE_DEFER hw)) ->
      sun4i_gpadc_probe_dt hw pdev w
      = Done (- (EPROBE_DEFER hw)) (set_data (Some d) w) []).
Proof.
  split; [|split].
  - intros Hm. unfold sun4i_gpadc_probe_dt.
    rewrite modify_bind, gets_bind. simpl. now rewrite Hm.
  - intros d Hm Hio. apply Z.eqb_neq in Hio. unfold sun4i_gpadc_probe_dt.
    rewrite modify_bind, gets_bind. simpl. rewrite Hm. simpl.
    now rewrite Hio.
  - intros d Hm Hio Hnv Hcell. unfold sun4i_gpadc_probe_dt.
    rewrite modify_bind, gets_bind. simpl. rewrite Hm. simpl.
    rewrite Hio. simpl.
    rewrite (info_data_bind _ _ (set_data (Some d) w) d eq_refl), Hnv, Hcell.
    now rewrite Z.eqb_refl.
Qed.

(** X17.  Any other error of the calibration cell is tolerated: the probe
    goes on without logging, leaves the calibration words as they were and
    returns 0 when its later resources are there. *)
Theorem probe_dt_cell_error_tolerated w d err :
  of_match_data pdev = Some d ->
  ioremap_err pdev = 0 ->
  supports_nvmem d = true ->
  nvmem_calibration pdev = NvmemCellErr err ->
  err <> - (EPROBE_DEFER hw) ->
  exists ret w' evs,
    sun4i_gpadc_probe_dt hw pdev w = Done ret w' evs /\
    calibration_data w' = calibration_data w /\
    (EvDevErr "Calibration data has wrong size" ∉ evs) /\
    (probe_resources_ok pdev -> ret = 0).
Proof.
  intros Hm Hio Hnv Hcell Herr. apply Z.eqb_neq in Herr.
  unfold sun4i_gpadc_probe_dt.
  rewrite modify_bind, gets_bind. simpl. rewrite Hm. simpl.
  rewrite Hio. simpl.
  rewrite (info_data_bind _ _ (set_data (Some d) w) d eq_refl), Hnv, Hcell, Herr.
  set (w1 := set_data (Some d) w).
  destruct (probe_dt_regmap_returns pdev d w1 eq_refl)
    as (ret & w' & evs & Hrun & _ & Hret).
  exists ret, w', evs. split; [exact Hrun|].
  split; [now rewrite (preserves_calibration_probe_dt_regmap _ _ _ _ _ Hrun)|].
  split; [|exact Hret].
  assert (emits_only (fun e => e <> EvDevErr "Calibration data has wrong size")
            (probe_dt_regmap pdev)) as He.
  { unfold probe_dt_regmap, probe_dt_irq, probe_dt_reset, probe_dt_bus_clk,
      probe_dt_mod_clk, probe_dt_disable_bus_clk, probe_dt_assert_reset,
      disable_irq, skip.
    walk; discriminate. }
  specialize (He w1). rewrite Hrun in He. simpl in He.
  rewrite Forall_forall in He. intros Hin. now apply (He _ Hin).
Qed.

Lemma preserves_irq_depth_probe_dt_reset :
  preserves irq_depth (probe_dt_reset pdev).
Proof.
  unfold probe_dt_reset, probe_dt_bus_clk, probe_dt_mod_clk,
    probe_dt_disable_bus_clk, probe_dt_assert_reset, skip.
  walk.
Qed.

(** X18.  A probe that gets as far as the interrupt leaves the line parked
    on a variant with interrupt support and ADC channels: its disable
    depth is one more than before, whether the request of the interrupt
    succeeded or not and whatever the later steps return.  On the other
    variants the depth is as before. *)
Theorem probe_dt_parks_irq w d :
  of_match_data pdev = Some d ->
  ioremap_err pdev = 0 ->
  (supports_nvmem d = true ->
   nvmem_calibration pdev <> NvmemCellErr (- (EPROBE_DEFER hw))) ->
  regmap_init_err pdev = 0 ->
  exists ret w' evs,
    sun4i_gpadc_probe_dt hw pdev w = Done ret w' evs /\
    irq_depth w'
    = if support_irq d && adc_channel d then S (irq_depth w) else irq_depth w.
Proof.
  intros Hm Hio Hcell Hre.
  assert (forall w1, data w1 = Some d -> irq_depth w1 = irq_depth w ->
            exists ret w' evs,
              probe_dt_regmap pdev w1 = Done ret w' evs /\
              irq_depth w'
              = if support_irq d && adc_channel d
                then S (irq_depth w) else irq_depth w) as Hstage.
  { intros w1 Hd1 Hdep. unfold probe_dt_regmap. rewrite Hre. simpl.
    unfold probe_dt_irq. rewrite (info_data_bind _ _ w1 d Hd1).
    destruct (support_irq d); simpl.
    - rewrite (bind_run (emit _) _ w1 tt w1 [_] eq_refl).
      rewrite (info_data_bind _ _ w1 d Hd1).
      destruct (adc_channel d).
      + rewrite (bind_run disable_irq _ w1 tt
                   (set_irq_depth (S (irq_depth w1)) w1) [EvDisableIrq] eq_refl).
        destruct (Z.eqb_spec (request_irq_ret pdev) 0) as [Hq|Hq]; simpl.
        * destruct (probe_dt_reset_returns pdev d
                      (set_irq_depth (S (irq_depth w1)) w1) Hd1)
            as (ret & w' & evs & Hrun & _ & _).
          rewrite Hrun. eexists _, _, _. split; [reflexivity|].
          rewrite (preserves_irq_depth_probe_dt_reset _ _ _ _ Hrun).
          simpl. now rewrite Hdep.
        * eexists _, _, _. split; [reflexivity|]. simpl. now rewrite Hdep.
      + unfold skip. rewrite ret_bind.
        destruct (Z.eqb_spec (request_irq_ret pdev) 0) as [Hq|Hq]; simpl.
        * destruct (probe_dt_reset_returns pdev d w1 Hd1)
            as (ret & w' & evs & Hrun & _ & _).
          rewrite Hrun. eexists _, _, _. split; [reflexivity|].
          now rewrite (preserves_irq_depth_probe_dt_reset _ _ _ _ Hrun).
        * eexists _, _, _. split; [reflexivity|]. simpl. now rewrite Hdep.
    - destruct (probe_dt_reset_returns pdev d w1 Hd1)
        as (ret & w' & evs & Hrun & _ & _).
      rewrite Hrun. eexists _, _, _. split; [reflexivity|].
      now rewrite (preserves_irq_depth_probe_dt_reset _ _ _ _ Hrun). }
  unfold sun4i_gpadc_probe_dt.
  rewrite modify_bind, gets_bind. simpl. rewrite Hm. simpl.
  rewrite Hio. simpl.
  rewrite (info_data_bind _ _ (set_data (Some d) w) d eq_refl).
  destruct (supports_nvmem d); [|apply Hstage; reflexivity].
  destruct (nvmem_calibration pdev) as [err|blob].
  - destruct (Z.eqb_spec err (- (EPROBE_DEFER hw))) as [->|_].
    + now destruct (Hcell eq_refl).
    + apply Hstage; reflexivity.
  - destruct (Z.eqb_spec (Z.of_nat (length blob)) 8); simpl.
    + rewrite modify_bind. apply Hstage; reflexivity.
    + destruct (Hstage (set_data (Some d) w) eq_refl eq_refl)
        as (ret & w' & evs & Hrun & Hdep).
      rewrite (bind_run (emit _) _ _ tt (set_data (Some d) w) [_] eq_refl).
      rewrite Hrun. eauto.
Qed.


End ProbeMore.

(** ** The further properties on the sample devices *)

(** A temperature request on the A10 device that the interrupt answers
    with the 77 of the temperature data register. *)
Lemma read_delivers_sample_witness :
  let w := set_irq_raised true a10_device in
  let irq := SUN4I_GPADC_IRQ_TEMP_DATA sunxi_header in
  mode_select sunxi_header (sun4i_gpadc_data sunxi_header) 0 irq = Some 16 /\
  exists w' evs,
    sun4i_gpadc_read sunxi_header 0 7 irq w = Done (0, 77) w' evs /\
    completion w' = 0%nat /\ irq_depth w' = 1%nat /\ pm_usage w' = 0.
Proof.
  intros w irq.
  assert (mode_select sunxi_header (sun4i_gpadc_data sunxi_header) 0 irq
          = Some 16) as Hv by (vm_compute; reflexivity).
  split; [exact Hv|].
  destruct (read_delivers_sample sunxi_header w
              (sun4i_gpadc_data sunxi_header) 0 7 irq 16
              eq_refl eq_refl Hv eq_refl eq_refl eq_refl)
    as (w' & evs & Hrun & Hc & _ & Hdep & _ & Hpm);
    [vm_compute; discriminate..|].
  exists w', evs. split; [|auto].
  rewrite Hrun. reflexivity.
Defined.

(** A temperature request on the A10 device that times out. *)
Lemma read_bracket_witness :
  let irq := SUN4I_GPADC_IRQ_TEMP_DATA sunxi_header in
  let run := sun4i_gpadc_read sunxi_header 0 7 irq a10_device in
  run = Done (- (ETIMEDOUT sunxi_header), 7)
          (world_of a10_device run) (events_of run) /\
  mutex_held (world_of a10_device run) = false /\
  pm_usage (world_of a10_device run) = 0 /\
  (1 <= irq_depth (world_of a10_device run))%nat.
Proof.
  intros irq run.
  assert (run = Done (- (ETIMEDOUT sunxi_header), 7)
                  (world_of a10_device run) (events_of run))
    as Hrun by (vm_compute; reflexivity).
  split; [exact Hrun|].
  destruct (read_bracket sunxi_header 0 7 irq a10_device _ _ _ Hrun)
    as (_ & Hm & Hpm & _ & Hdep & _).
  auto.
Defined.

(** A temperature request on an A10 device whose interrupt has been
    disabled twice: the interrupt is raised and never served. *)
Lemma read_with_unbalanced_depth_witness :
  let irq := SUN4I_GPADC_IRQ_TEMP_DATA sunxi_header in
  let w := set_irq_depth 2 (set_irq_raised true a10_device) in
  let prep := sun4i_prepare_for_irq sunxi_header 0 irq (read_entry irq w) in
  (2 <= irq_depth w)%nat /\
  prep = Done 0 (world_of w prep) (events_of prep) /\
  exists w' evs,
    sun4i_gpadc_read sunxi_header 0 7 irq w
    = Done (- (ETIMEDOUT sunxi_header), 7) w' evs /\
    irq_depth w' = 2%nat /\ irq_raised w' = true.
Proof.
  intros irq w prep.
  assert (2 <= irq_depth w)%nat as Hdep by (simpl; lia).
  assert (prep = Done 0 (world_of w prep) (events_of prep)) as Hprep
    by (vm_compute; reflexivity).
  split; [exact Hdep|]. split; [exact Hprep|].
  destruct (read_with_unbalanced_depth sunxi_header 0 7 irq w _ _ Hdep Hprep)
    as (w' & Hrun & Hd & Hr).
  exists w'. eexists. split; [exact Hrun|]. auto.
Defined.

(** The raw read of voltage channel 0 on the A33 device. *)
Lemma voltage_read_without_chan_select_witness :
  adc_chan_select (sun8i_a33_gpadc_data sunxi_header) = None /\
  sun4i_gpadc_read_raw sunxi_header (SUN4I_GPADC_ADC_CHANNEL 0 "adc_chan0")
    0 0 IIO_CHAN_INFO_RAW a33_device
  = Oops [EvMutexLock; EvPmGetSync; EvReinitCompletion;
          EvRegWrite 16 272 0; EvRegRead 4 0].
Proof.
  split; [reflexivity|].
  exact (voltage_read_without_chan_select sunxi_header a33_device
           (sun8i_a33_gpadc_data sunxi_header)
           (SUN4I_GPADC_ADC_CHANNEL 0 "adc_chan0") 0 0
           eq_refl eq_refl eq_refl eq_refl eq_refl).
Defined.

(** The temperature read on the A33 device. *)
Lemma temp_read_direct_witness :
  adc_channel (sun8i_a33_gpadc_data sunxi_header) = false /\
  exists w',
    sun4i_gpadc_temp_read sunxi_header 7 0 a33_device
    = Done (0, 77) w'
        [EvPmGetSync; EvRegRead 32 0; EvPmMarkLastBusy; EvPmPutAutosuspend] /\
    pm_usage w' = 0 /\ mutex_held w' = false.
Proof.
  split; [reflexivity|].
  destruct (temp_read_direct sunxi_header a33_device
              (sun8i_a33_gpadc_data sunxi_header) 7 0 eq_refl eq_refl)
    as (w' & Hrun & Hpm & Hm & _ & _).
  exists w'. split; [|auto]. rewrite Hrun. reflexivity.
Defined.

(** The thermal callback on the A10 device when the first register write
    of the request fails with -5. *)
Lemma get_temp_error_witness :
  let w := set_faults [-5] a10_device in
  let read := sun4i_gpadc_temp_read sunxi_header (stack_junk w) 0 w in
  read = Done (-5, 0) (world_of w read) (events_of read) /\
  sun4i_gpadc_get_temp sunxi_header 0 42 w
  = Done (- (ETIMEDOUT sunxi_header), 42) (world_of w read) (events_of read).
Proof.
  intros w read.
  assert (read = Done (-5, 0) (world_of w read) (events_of read)) as Hread
    by (vm_compute; reflexivity).
  split; [exact Hread|].
  apply (get_temp_error sunxi_header w 0 42 (-5) 0 _ _ Hread).
  discriminate.
Defined.

(** The thermal callback on an A33 device whose register read fails with
    -5, the uninitialised local holding 0. *)
Lemma get_temp_direct_read_failure_witness :
  let w := set_faults [-5] a33_device in
  hd 0 (faults w) <> 0 /\
  exists w' evs,
    sun4i_gpadc_get_temp sunxi_header 0 42 w
    = Done (0, (0 + -1662) * 162) w' evs.
Proof.
  intros w.
  assert (hd 0 (faults w) <> 0) as Hf by discriminate.
  split; [exact Hf|].
  destruct (get_temp_direct_read_failure sunxi_header w
              (sun8i_a33_gpadc_data sunxi_header) 0 42 eq_refl eq_refl Hf)
    as (w' & evs & Hrun).
  exists w', evs. rewrite Hrun. reflexivity.
Defined.

(** The periodic interrupt on the H3 device. *)
Lemma h3_irq_thread_notifies_witness :
  exists w',
    sunx8i_h3_irq_thread sunxi_header (h3_device 0)
    = Done 1 w' [EvRegWrite 72 256 0; EvThermalZoneUpdate 0] /\
    completion w' = 0%nat.
Proof.
  destruct (h3_irq_thread_notifies sunxi_header (h3_device 0)
              (sun8i_h3_ths_data sunxi_header) eq_refl)
    as (w' & Hrun & Hc & _).
  exists w'. split; [|exact Hc]. rewrite Hrun. reflexivity.
Defined.

(** Suspend and resume of the A10 device whose register writes all fail. *)
Lemma runtime_pm_returns_zero_witness :
  let w := set_faults [-5; -5; -5; -5; -5; -5] a10_device in
  sun4i_gpadc_data sunxi_header ∈ (sun4i_gpadc_of_id sunxi_header).*2 /\
  (exists w' evs, sun4i_gpadc_runtime_suspend sunxi_header w = Done 0 w' evs) /\
  (exists w' evs, sun4i_gpadc_runtime_resume sunxi_header w = Done 0 w' evs).
Proof.
  intros w.
  assert (sun4i_gpadc_data sunxi_header ∈ (sun4i_gpadc_of_id sunxi_header).*2)
    as Hin by (simpl; repeat constructor).
  split; [exact Hin|].
  exact (runtime_pm_returns_zero sunxi_header w
           (sun4i_gpadc_data sunxi_header) eq_refl Hin).
Defined.

(** The suspend of the A10 device: the FIFO data register keeps its 1234
    and control register 1 is cleared. *)
Lemma runtime_suspend_clears_witness :
  exists w' evs,
    sun4i_gpadc_runtime_suspend sunxi_header a10_device = Done 0 w' evs /\
    (regs w' !! 0x24) = Some 1234 /\ (regs w' !! 0x04) = Some 0.
Proof.
  destruct (runtime_suspend_clears sunxi_header a10_device
              (sun4i_gpadc_data sunxi_header) sun4i_ths_suspend_fn
              eq_refl eq_refl eq_refl)
    as (w' & evs & Hrun & Hregs).
  exists w', evs. split; [exact Hrun|].
  split; rewrite Hregs; vm_compute; reflexivity.
Defined.

(** Suspend then resume of the A10 device. *)
Lemma suspend_resume_gpadc_witness :
  exists ws es wr er,
    sun4i_gpadc_runtime_suspend sunxi_header a10_device = Done 0 ws es /\
    sun4i_gpadc_runtime_resume sunxi_header ws = Done 0 wr er.
Proof.
  destruct (suspend_resume_gpadc sunxi_header a10_device
              (sun4i_gpadc_data sunxi_header)
              eq_refl eq_refl eq_refl eq_refl)
    as (ws & es & wr & er & _ & _ & Hs & Hr & _).
  exists ws, es, wr, er. auto.
Defined.

(** Suspend then resume of the H3 device. *)
Lemma suspend_resume_h3_witness :
  exists ws es wr er wr' er',
    sun4i_gpadc_runtime_suspend sunxi_header (h3_device 2) = Done 0 ws es /\
    sun4i_gpadc_runtime_resume sunxi_header ws = Done 0 wr er /\
    sun4i_gpadc_runtime_resume sunxi_header (h3_device 2) = Done 0 wr' er' /\
    regs wr = regs wr'.
Proof.
  exact (suspend_resume_h3 sunxi_header (h3_device 2)
           (sun8i_h3_ths_data sunxi_header)
           eq_refl eq_refl eq_refl eq_refl).
Defined.

(** The preparation of a voltage request for channel 2 on the A10
    device. *)
Lemma prepare_registers_witness :
  let irq := SUN4I_GPADC_IRQ_FIFO_DATA sunxi_header in
  mode_select sunxi_header (sun4i_gpadc_data sunxi_header) 2 irq = Some 26 /\
  exists w1 evs,
    sun4i_prepare_for_irq sunxi_header 2 irq a10_device = Done 0 w1 evs /\
    (regs w1 !! 0x04) = Some 26 /\ (regs w1 !! 0x10) = Some 262144 /\
    completion w1 = 0%nat /\ pm_usage w1 = 1.
Proof.
  intros irq.
  assert (mode_select sunxi_header (sun4i_gpadc_data sunxi_header) 2 irq
          = Some 26) as Hv by (vm_compute; reflexivity).
  assert (SUN4I_GPADC_INT_FIFOC sunxi_header <> SUN4I_GPADC_CTRL1 sunxi_header)
    as Hne by (vm_compute; discriminate).
  split; [exact Hv|].
  destruct (prepare_registers sunxi_header a10_device
              (sun4i_gpadc_data sunxi_header) 2 irq 26 eq_refl eq_refl Hv Hne)
    as (w1 & evs & Hrun & Hc & Hi & Hcomp & Hpm & _).
  exists w1, evs. split; [exact Hrun|].
  split; [exact Hc|]. split; [exact Hi|]. split; [exact Hcomp|exact Hpm].
Defined.

(** Voltage channel 1 then voltage channel 2 on the A10 device. *)
Lemma voltage_after_voltage_witness :
  let irq := SUN4I_GPADC_IRQ_FIFO_DATA sunxi_header in
  exists w1 e1,
    sun4i_prepare_for_irq sunxi_header 1 irq a10_device = Done 0 w1 e1 /\
    mdelays (events_of (sun4i_prepare_for_irq sunxi_header 2 irq w1)) = [10].
Proof.
  intros irq.
  assert (SUN4I_GPADC_INT_FIFOC sunxi_header <> SUN4I_GPADC_CTRL1 sunxi_header)
    as Hne by (vm_compute; discriminate).
  destruct (voltage_after_voltage sunxi_header a10_device
              (sun4i_gpadc_data sunxi_header) sun4i_gpadc_chan_select_fn 1 2
              eq_refl eq_refl eq_refl Hne eq_refl eq_refl eq_refl)
    as (w1 & e1 & Hrun & Hdel).
  exists w1, e1. split; [exact Hrun|exact Hdel].
Defined.

(** A temperature request then voltage channel 2 on the A10 device. *)
Lemma voltage_after_temperature_witness :
  exists w1 e1,
    sun4i_prepare_for_irq sunxi_header 0
      (SUN4I_GPADC_IRQ_TEMP_DATA sunxi_header) a10_device = Done 0 w1 e1 /\
    mdelays (events_of (sun4i_prepare_for_irq sunxi_header 2
                          (SUN4I_GPADC_IRQ_FIFO_DATA sunxi_header) w1))
    = [10; 100].
Proof.
  assert (SUN4I_GPADC_INT_FIFOC sunxi_header <> SUN4I_GPADC_CTRL1 sunxi_header)
    as Hne by (vm_compute; discriminate).
  assert (SUN4I_GPADC_IRQ_TEMP_DATA sunxi_header
          <> SUN4I_GPADC_IRQ_FIFO_DATA sunxi_header)
    as Hirq by (vm_compute; discriminate).
  assert (tp_adc_select (sun4i_gpadc_data sunxi_header) <> 0)
    as Hs by (vm_compute; discriminate).
  destruct (voltage_after_temperature sunxi_header a10_device
              (sun4i_gpadc_data sunxi_header) sun4i_gpadc_chan_select_fn 0 2
              eq_refl eq_refl eq_refl Hne Hirq Hs eq_refl eq_refl)
    as (w1 & e1 & Hrun & Hdel).
  exists w1, e1. split; [exact Hrun|exact Hdel].
Defined.

(** The probe of an H3 thermal sensor whose calibration cell is missing
    (-2, no such entry). *)
Lemma probe_dt_cell_error_tolerated_witness :
  let pdev := h3_platform_device_with (NvmemCellErr (-2)) 0 in
  -2 <> - (EPROBE_DEFER sunxi_header) /\
  exists w' evs,
    sun4i_gpadc_probe_dt sunxi_header pdev unbound_device = Done 0 w' evs /\
    calibration_data w' = (0, 0).
Proof.
  intros pdev.
  assert (-2 <> - (EPROBE_DEFER sunxi_header)) as Herr by discriminate.
  split; [exact Herr|].
  destruct (probe_dt_cell_error_tolerated sunxi_header pdev unbound_device
              (sun8i_h3_ths_data sunxi_header) (-2)
              eq_refl eq_refl eq_refl eq_refl Herr)
    as (ret & w' & evs & Hrun & Hcal & _ & Hret).
  exists w', evs. split; [|exact Hcal].
  rewrite Hrun. f_equal. apply Hret. unfold probe_resources_ok. simpl. tauto.
Defined.

(** The probe of an A10 GPADC whose interrupt request fails with -16. *)
Lemma probe_dt_parks_irq_witness :
  let pdev := a10_platform_device (-16) in
  exists ret w' evs,
    sun4i_gpadc_probe_dt sunxi_header pdev unbound_device = Done ret w' evs /\
    irq_depth w' = 1%nat.
Proof.
  intros pdev.
  assert (supports_nvmem (sun4i_gpadc_data sunxi_header) = true ->
          nvmem_calibration pdev <> NvmemCellErr (- (EPROBE_DEFER sunxi_header)))
    as Hcell by discriminate.
  destruct (probe_dt_parks_irq sunxi_header pdev unbound_device
              (sun4i_gpadc_data sunxi_header) eq_refl eq_refl Hcell eq_refl)
    as (ret & w' & evs & Hrun & Hdep).
  exists ret, w', evs. split; [exact Hrun|exact Hdep].
Defined.


(** The raw read of voltage channel 1 on the A10 device, answered by the
    interrupt with the 1234 of the FIFO data register. *)
Lemma read_raw_delivers_witness :
  let w := set_irq_raised true a10_device in
  let chan := SUN4I_GPADC_ADC_CHANNEL 1 "adc_chan1" in
  mode_select sunxi_header (sun4i_gpadc_data sunxi_header) 1
    (SUN4I_GPADC_IRQ_FIFO_DATA sunxi_header) = Some 25 /\
  exists w' evs,
    sun4i_gpadc_read_raw sunxi_header chan 7 9 IIO_CHAN_INFO_RAW w
    = Done (IIO_VAL_INT sunxi_header, 1234, 9) w' evs /\
    mutex_held w' = false /\ pm_usage w' = 0.
Proof.
  intros w chan.
  assert (mode_select sunxi_header (sun4i_gpadc_data sunxi_header) 1
            (SUN4I_GPADC_IRQ_FIFO_DATA sunxi_header) = Some 25) as Hv
    by (vm_compute; reflexivity).
  split; [exact Hv|].
  destruct (read_raw_delivers sunxi_header w (sun4i_gpadc_data sunxi_header)
              chan 7 9 25 eq_refl eq_refl eq_refl Hv eq_refl eq_refl eq_refl)
    as (w' & evs & Hrun & Hm & Hpm & _);
    [vm_compute; discriminate..|].
  exists w', evs. split; [|auto].
  rewrite Hrun. reflexivity.
Defined.
